(** * Budget-forced decoding: the rollout controllers of deepseek-s1

    A shallow embedding of
      - verl/workers/rollout/stop_criteria.py
      - verl/workers/rollout/hf_rollout.py
      - verl/third_party/vllm/vllm_v_0_6_3/llm.py  (the budget-forcing parts)
    followed by the properties of the budget-forcing design.

    Conventions.  Python integers are [Z].  A 2-D [torch.LongTensor] is a
    [Tensor2]: its column count is kept next to the rows so that
    [shape[1]] is defined for an empty batch too.  Python exceptions are
    values of [PyError]; a computation returns a [result].  The generator
    ([model.generate]) and the vLLM engine are external collaborators and
    appear as section variables. *)

From Stdlib Require Import ZArith Bool String Ascii List Lia PeanoNat.
From Stdlib Require Import Permutation Sorted.
Import ListNotations.
Open Scope Z_scope.

Set Implicit Arguments.

(* ================================================================= *)
(** ** Exceptions and results *)

Inductive PyError : Type :=
| AssertionError
| RuntimeError        (* torch shape errors, [torch.stack] of nothing *)
| IndexError
| KeyError
| UnboundLocalError
| ValueError
| TypeError.

Inductive result (A : Type) : Type :=
| Ok (a : A)
| Err (e : PyError)
| OutOfFuel.

Arguments Ok {A} a.
Arguments Err {A} e.
Arguments OutOfFuel {A}.

Definition rbind {A B} (r : result A) (k : A -> result B) : result B :=
  match r with
  | Ok a => k a
  | Err e => Err e
  | OutOfFuel => OutOfFuel
  end.

Declare Scope result_scope.
Delimit Scope result_scope with res.
Notation "x <-- c ;; k" := (rbind c (fun x => k))
  (at level 61, c at next level, right associativity) : result_scope.

(* ================================================================= *)
(** ** Python lists and strings *)

(** [l[-n:]] *)
Definition lastn {A} (n : nat) (l : list A) : list A :=
  skipn (length l - n) l.

(** [l[:-n]] for [n > 0] *)
Definition droplast {A} (n : nat) (l : list A) : list A :=
  firstn (length l - n) l.

Fixpoint list_eqb (a b : list Z) : bool :=
  match a, b with
  | [], [] => true
  | x :: a', y :: b' => (x =? y) && list_eqb a' b'
  | _, _ => false
  end.

(** [x in l] for a list of lists of integers *)
Definition py_in (x : list Z) (l : list (list Z)) : bool :=
  existsb (list_eqb x) l.

Definition zip_with {A B C} (f : A -> B -> C) (a : list A) (b : list B)
  : list C :=
  map (fun p => f (fst p) (snd p)) (combine a b).

Definition NL : string := String (ascii_of_nat 10) EmptyString.

(** [s.startswith(p)] *)
Definition startswith (s p : string) : bool := String.prefix p s.

Fixpoint string_rev_app (s acc : string) : string :=
  match s with
  | EmptyString => acc
  | String c s' => string_rev_app s' (String c acc)
  end.

Definition string_rev (s : string) : string := string_rev_app s EmptyString.

(** [s.endswith(p)] *)
Definition endswith (s p : string) : bool :=
  String.prefix (string_rev p) (string_rev s).

(** A [Dict[str, int]]; lookup of a missing key raises [KeyError]. *)
Definition Dict := list (string * Z).

Fixpoint dict_get (d : Dict) (k : string) : result Z :=
  match d with
  | [] => Err KeyError
  | (k', v) :: d' => if String.eqb k' k then Ok v else dict_get d' k
  end.

(* ================================================================= *)
(** ** Tensors *)

Record Tensor2 : Type := mkTensor2 {
  ncols : nat;               (* shape[1] *)
  rows : list (list Z)       (* shape[0] rows *)
}.

Definition nrows (t : Tensor2) : nat := length (rows t).

Definition wf (t : Tensor2) : Prop :=
  Forall (fun r => length r = ncols t) (rows t).

(** [t[:, -n:]] *)
Definition slice_last_cols (n : nat) (t : Tensor2) : Tensor2 :=
  {| ncols := Nat.min n (ncols t); rows := map (lastn n) (rows t) |}.

(** [t[:, n:]] *)
Definition slice_from_col (n : nat) (t : Tensor2) : Tensor2 :=
  {| ncols := ncols t - n; rows := map (skipn n) (rows t) |}.

(** [t[:, :n]] *)
Definition slice_to_col (n : nat) (t : Tensor2) : Tensor2 :=
  {| ncols := Nat.min n (ncols t); rows := map (firstn n) (rows t) |}.

(** [t[:, -1]]: indexing a dimension of size 0 raises. *)
Definition select_last_col (t : Tensor2) : result (list Z) :=
  if (ncols t =? 0)%nat then Err IndexError
  else Ok (map (fun r => last r 0) (rows t)).

(** [t[:, 0]] *)
Definition select_first_col (t : Tensor2) : result (list Z) :=
  if (ncols t =? 0)%nat then Err IndexError
  else Ok (map (fun r => hd 0 r) (rows t)).

(** [torch.ones_like(t)] *)
Definition ones_like (t : Tensor2) : Tensor2 :=
  {| ncols := ncols t; rows := map (map (fun _ => 1)) (rows t) |}.

(** [torch.cat([a, b], dim=-1)]: the batch sizes have to agree. *)
Definition cat_cols (a b : Tensor2) : result Tensor2 :=
  if (nrows a =? nrows b)%nat
  then Ok {| ncols := ncols a + ncols b;
             rows := zip_with (@app Z) (rows a) (rows b) |}
  else Err RuntimeError.

(** [torch.stack(ts, dim=0)] of 1-D tensors: a non-empty list of tensors of
    one size. *)
Definition torch_stack (ts : list (list Z)) : result Tensor2 :=
  match ts with
  | [] => Err RuntimeError
  | t :: _ =>
      if forallb (fun r => (length r =? length t)%nat) ts
      then Ok {| ncols := length t; rows := ts |}
      else Err RuntimeError
  end.

(** Rounding of an integer to [p] significant bits, to nearest, ties to
    even. *)
Definition round_half_even (p : Z) (z : Z) : Z :=
  let a := Z.abs z in
  let bits := Z.log2 a + 1 in
  if bits <=? p then z
  else
    let s := bits - p in
    let q := Z.shiftr a s in
    let r := a - Z.shiftl q s in
    let half := Z.shiftl 1 (s - 1) in
    let q' := if (half <? r) || ((r =? half) && Z.odd q) then q + 1 else q in
    Z.sgn z * Z.shiftl q' s.

(** [torch.Tensor([...]).long()] on Python integers.  [torch.Tensor] holds
    32-bit floats: an integer passes through a double (53 significant
    bits) and then a float (24 significant bits); [.long()] turns the
    float back into an integer.  Integers of at most 24 bits come back
    unchanged, larger ones rounded.  The function describes the
    conversion for integers below 2^62 in magnitude, whose float still
    fits a 64-bit integer; token ids are indices into a vocabulary. *)
Definition float32_long (z : Z) : Z :=
  round_half_even 24 (round_half_even 53 z).

Definition float_tensor_long (l : list Z) : list Z := map float32_long l.

(** [torch.tensor(ids)] on Python integers: a 64-bit integer tensor;
    an integer outside the 64-bit range overflows. *)
Definition int64_tensor (ids : list Z) : result (list Z) :=
  if forallb (fun z => (- 2 ^ 63 <=? z) && (z <? 2 ^ 63)) ids
  then Ok ids else Err RuntimeError.

(** The right operand of a comparison [tensor == obj].  A tensor compared
    with something that is neither a number nor a tensor is not compared
    element by element: [Tensor.__eq__] answers [NotImplemented], Python
    falls back to identity and the whole expression is the plain boolean
    [False]. *)
Inductive PyObj : Type :=
| PyInt (z : Z)
| PyNone
| PyBuiltinInt.      (* the type object [int] *)

(** What a comparison of a 1-D tensor evaluates to: a boolean tensor or a
    plain Python boolean. *)
Inductive Mask : Type :=
| MaskVec (m : list bool)
| MaskScalar (b : bool).

Definition tensor_eq (t : list Z) (o : PyObj) : Mask :=
  match o with
  | PyInt z => MaskVec (map (fun x => x =? z) t)
  | PyNone => MaskScalar false
  | PyBuiltinInt => MaskScalar false
  end.

Definition opt_obj (o : option Z) : PyObj :=
  match o with Some z => PyInt z | None => PyNone end.

(** Shapes [a] and [b] of one dimension broadcast when equal or when one of
    them is 1. *)
Definition broadcastable (a b : nat) : bool :=
  ((a =? b) || (a =? 1) || (b =? 1))%nat.

Definition broadcast_dim (a b : nat) : nat :=
  if (a =? 1)%nat then b else a.

(** Expansion of a row along its (last) dimension to size [n]. *)
Definition expand_row (n : nat) (r : list Z) : list Z :=
  if (length r =? n)%nat then r else repeat (hd 0 r) n.

(** [v[mask] = b] on a 1-D boolean tensor [v]. *)
Definition mask_fill (v : list bool) (mask : Mask) (b : bool) : list bool :=
  match mask with
  | MaskVec m => zip_with (fun x hit => if (hit : bool) then b else x) v m
  | MaskScalar true => map (fun _ => b) v
  | MaskScalar false => v
  end.

(** [t[mask, -1] = v].  With a boolean tensor the last column of the
    selected rows is written.  With a plain Python boolean the index adds a
    leading dimension (of size 1 for [True], 0 for [False]) and the [-1]
    then selects the last row of the batch: nothing is written for [False],
    the whole last row for [True]; an empty batch has no last row. *)
Definition set_last_col (t : Tensor2) (mask : Mask) (v : Z) : result Tensor2 :=
  match mask with
  | MaskVec m =>
      if (ncols t =? 0)%nat then Err IndexError
      else if negb (length m =? nrows t)%nat then Err IndexError
      else Ok {| ncols := ncols t;
                 rows := zip_with (fun r (hit : bool) =>
                                     if hit then droplast 1 r ++ [v] else r)
                                  (rows t) m |}
  | MaskScalar b =>
      if (nrows t =? 0)%nat then Err IndexError
      else if b
           then Ok {| ncols := ncols t;
                      rows := droplast 1 (rows t)
                              ++ [map (fun _ => v) (last (rows t) [])] |}
           else Ok t
  end.

(** [t[idx, -3:] = repl] where [idx = torch.nonzero(mask)] and [repl] has
    3 entries: the target has [min 3 shape[1]] columns and the value has
    to fit it. *)
Definition set_last_three (t : Tensor2) (mask : list bool) (repl : list Z)
  : result Tensor2 :=
  if (Nat.min 3 (ncols t) =? length repl)%nat
  then Ok {| ncols := ncols t;
             rows := zip_with (fun r (hit : bool) =>
                                 if hit then droplast 3 r ++ repl else r)
                              (rows t) mask |}
  else Err RuntimeError.

(* ================================================================= *)
(** ** stop_criteria.py *)

Record Tokenizer : Type := mkTokenizer {
  encode : string -> list Z;          (* tokenizer(s).input_ids *)
  get_vocab : list (string * Z);      (* tokenizer.get_vocab().items() *)
  tok_eos_token_id : option Z;        (* tokenizer.eos_token_id *)
  tok_pad_token_id : option Z         (* tokenizer.pad_token_id *)
}.

(** [get_matching_eos_mask(input_ids, eos)].  The comparison on the second
    line of the body is against the builtin [int], not against [eos]. *)
Definition get_matching_eos_mask (input_ids : Tensor2) (eos : option Z)
  : result Mask :=
  (last_token <-- select_last_col input_ids ;;
   let matching_idx := tensor_eq last_token PyBuiltinInt in
   Ok matching_idx)%res.

(** [get_matching_seq_mask(input_ids, pattern)] *)
Definition get_matching_seq_mask (input_ids pattern : Tensor2)
  : result (list bool) :=
  (* 1. the last three tokens of each sequence *)
  let last_three := slice_last_cols 3 input_ids in
  (* 2. (B, 1, k) == (1, M, p), broadcast to (B, M, n) *)
  if broadcastable (ncols last_three) (ncols pattern) then
    let n := broadcast_dim (ncols last_three) (ncols pattern) in
    let matches :=
      map (fun r =>
             map (fun p => zip_with Z.eqb (expand_row n r) (expand_row n p))
                 (rows pattern))
          (rows last_three) in
    (* 3. all three elements must match *)
    let pattern_match := map (map (forallb (fun b => b))) matches in
    (* 4. any of the patterns *)
    let rows_matching := map (existsb (fun b => b)) pattern_match in
    Ok rows_matching
  else Err RuntimeError.

Module AnyEosStoppingCriteria.

Record t : Type := mk { eos_token_id : list Z }.

(** [eos_token_id if isinstance(eos_token_id, list) else [eos_token_id]] *)
Definition __init__ (eos_token_id : Z) : t := mk [eos_token_id].

Definition __call__ (self : t) (input_ids : Tensor2) : result (list bool) :=
  (last_token <-- select_last_col input_ids ;;
   let any_eos :=
     existsb (fun eos => existsb (fun x => x =? eos) last_token)
             (eos_token_id self) in
   first <-- select_first_col input_ids ;;
   if any_eos then Ok (map (fun _ => true) first)
   else Ok (map (fun _ => false) first))%res.

End AnyEosStoppingCriteria.

Definition think_token_id : Z := 26865.

(** The vocabulary scan shared by the two constructors. *)
Definition left_matching_token_ids (vocab : list (string * Z)) : list Z :=
  map snd (filter (fun e => endswith (fst e) "</") vocab).

Definition right_matching_token_ids (vocab : list (string * Z)) : list Z :=
  map snd (filter (fun e => startswith (fst e) ">") vocab).

(** [[l, think, r] for l, r in itertools.product(left, right)] *)
Definition think_triples (left right : list Z) : list (list Z) :=
  map (fun lr => [fst lr; think_token_id; snd lr]) (list_prod left right).

Module MatchingTokensStoppingCriteria.

Record t : Type := mk {
  tokenizer : Tokenizer;
  think_token_combo : Tensor2
}.

Definition __init__ (tokenizer : Tokenizer) : result t :=
  let vocab := get_vocab tokenizer in
  let left_matching_token_ids := left_matching_token_ids vocab in
  let right_matching_token_ids := right_matching_token_ids vocab in
  (* each triple goes through [torch.Tensor], the stack through [.long()] *)
  (combo <-- torch_stack (map float_tensor_long
                              (think_triples left_matching_token_ids
                                             right_matching_token_ids)) ;;
   Ok (mk tokenizer combo))%res.

Definition __call__ (self : t) (input_ids : Tensor2) : result (list bool) :=
  let seq_len := ncols input_ids in
  if (seq_len <=? 3)%nat then
    (first <-- select_first_col input_ids ;;
     Ok (map (fun _ => false) first))%res
  else
    (rows_matching <-- get_matching_seq_mask input_ids
                                             (think_token_combo self) ;;
     let matched_row := existsb (fun b => b) rows_matching in
     if matched_row then
       (first <-- select_first_col input_ids ;;
        let stop_tensor := map (fun _ => true) first in
        last_token <-- select_last_col input_ids ;;
        let eos_reached :=
          tensor_eq last_token
                    (opt_obj (tok_eos_token_id (tokenizer self))) in
        Ok (mask_fill stop_tensor eos_reached false))
     else
       (first <-- select_first_col input_ids ;;
        Ok (map (fun _ => false) first)))%res.

End MatchingTokensStoppingCriteria.

(* ================================================================= *)
(** ** The generator, as hf_rollout.py sees it *)

Inductive StoppingCriterion : Type :=
| MatchingTokens (c : MatchingTokensStoppingCriteria.t)
| AnyEos (c : AnyEosStoppingCriteria.t).

Definition stopping_call (c : StoppingCriterion) (input_ids : Tensor2)
  : result (list bool) :=
  match c with
  | MatchingTokens c => MatchingTokensStoppingCriteria.__call__ c input_ids
  | AnyEos c => AnyEosStoppingCriteria.__call__ c input_ids
  end.

(** The keyword arguments of one [model.generate] call.  The sampling
    hyper-parameters of [generation_config] (temperature, top_p, top_k) are
    passed through unchanged by every caller; they live in the generator's
    own state. *)
Record GenCall : Type := mkGenCall {
  gc_input_ids : Tensor2;
  gc_attention_mask : Tensor2;
  gc_do_sample : bool;
  gc_max_new_tokens : Z;
  gc_eos_token_id : Z;
  gc_pad_token_id : Z;
  gc_num_return_sequences : Z;
  gc_stopping_criteria : list StoppingCriterion
}.

(* ================================================================= *)
(** ** HFRollout: configuration and constructor *)

(** The fields of the rollout configuration that the class reads. *)
Record RolloutConfig : Type := mkRolloutConfig {
  cfg_do_sample : bool;
  cfg_response_length : Z;
  cfg_n : Z;
  cfg_do_budget_forcing : bool;
  cfg_min_budget : Z;
  cfg_max_budget : Z
}.

(** [prompts.meta_info]: two required keys, three optional ones. *)
Record MetaInfo : Type := mkMetaInfo {
  mi_eos_token_id : Z;
  mi_pad_token_id : Z;
  mi_do_sample : option bool;
  mi_response_length : option Z;
  mi_validate : option bool
}.

Record DataProto : Type := mkDataProto {
  batch_input_ids : Tensor2;
  batch_attention_mask : Tensor2;
  meta_info : MetaInfo
}.

(** The token tensors of the returned batch.  (Its attention mask and
    position ids are computed by [verl.utils.torch_functional] from these
    and are left out.) *)
Record RolloutBatch : Type := mkRolloutBatch {
  out_prompts : Tensor2;
  out_responses : Tensor2;
  out_input_ids : Tensor2
}.

(** [d.get(key, default)] *)
Definition get_or {A} (o : option A) (default : A) : A :=
  match o with Some a => a | None => default end.

(** [l[0]] *)
Definition py_first (l : list Z) : result Z :=
  match l with [] => Err IndexError | x :: _ => Ok x end.

Module HFRollout.

Record t : Type := mk {
  tokenizer : Tokenizer;
  config : RolloutConfig;
  replacement_tokens : Dict
}.

Definition __init__ (tokenizer : Tokenizer) (config : RolloutConfig)
  : result t :=
  let wait_ids := encode tokenizer "Wait" in
  if negb (length wait_ids =? 1)%nat then Err AssertionError
  else
    (wait_token_id <-- py_first wait_ids ;;
     new_line_id <-- py_first (encode tokenizer NL) ;;
     comma_id <-- py_first (encode tokenizer ",") ;;
     Ok (mk tokenizer config
            [(NL, new_line_id); ("Wait"%string, wait_token_id);
             (","%string, comma_id)]))%res.

End HFRollout.

Section Rollout.

(** The model with its sampler: an opaque state and one operation. *)
Variable G : Type.
Variable generate : G -> GenCall -> Tensor2 * G.

(** The world a rollout runs in: the generator's state and the calls made
    to it so far, most recent first. *)
Record World : Type := mkWorld {
  gen_state : G;
  calls : list GenCall
}.

Definition M (A : Type) : Type := World -> result A * World.

Definition ret {A} (a : A) : M A := fun w => (Ok a, w).

Definition bind {A B} (m : M A) (k : A -> M B) : M B :=
  fun w =>
    match m w with
    | (Ok a, w') => k a w'
    | (Err e, w') => (Err e, w')
    | (OutOfFuel, w') => (OutOfFuel, w')
    end.

Definition lift {A} (r : result A) : M A := fun w => (r, w).

Definition raise {A} (e : PyError) : M A := lift (Err e).

Definition py_assert (b : bool) : M unit :=
  if b then ret tt else raise AssertionError.

Definition model_generate (c : GenCall) : M Tensor2 :=
  fun w =>
    let (out, g') := generate (gen_state w) c in
    (Ok out, {| gen_state := g'; calls := c :: calls w |}).

Notation "x <- c ;; k" := (bind c (fun x => k))
  (at level 61, c at next level, right associativity).

(* --------------------------------------------------------------- *)
(** *** budget_forcing_gen *)

(** The variables the Forcing loop assigns. *)
Record LoopVars : Type := mkLoopVars {
  lv_output_seqs : Tensor2;
  lv_input_idx : Tensor2;
  lv_attention_mask : Tensor2;
  lv_prompt_length : nat
}.

Section Forcing.

(** What the loop reads and never assigns. *)
Variable tokenizer : Tokenizer.
Variable matching_seq_stop_criteria : MatchingTokensStoppingCriteria.t.
Variable eos_stop_criteria : AnyEosStoppingCriteria.t.
Variable replacement_seq : list Z.
Variable replace_tokens : Dict.
Variables eos_token_id pad_token_id : Z.
Variables min_budget max_budget max_budget_cut : Z.
Variable current_used_budget : Z.

(** The first four statements of the loop body: the two masks, then
    the two in-place writes into [output_seqs]. *)
Definition splice_tails (output_seqs : Tensor2) : result Tensor2 :=
  (matching_seq_mask <--
     get_matching_seq_mask
       output_seqs
       (MatchingTokensStoppingCriteria.think_token_combo
          matching_seq_stop_criteria) ;;
   matching_eos_mask <--
     get_matching_eos_mask output_seqs (tok_eos_token_id tokenizer) ;;
   output_seqs <--
     set_last_three output_seqs matching_seq_mask replacement_seq ;;
   nl <-- dict_get replace_tokens NL ;;
   set_last_col output_seqs matching_eos_mask nl)%res.

(** One pass through the body of [while current_used_budget < min_budget]. *)
Definition forcing_body (v : LoopVars) : M LoopVars :=
  output_seqs <- lift (splice_tails (lv_output_seqs v)) ;;
  new_input_attention_masks <-
    lift (cat_cols (lv_attention_mask v)
                   (ones_like (slice_from_col (lv_prompt_length v)
                                              output_seqs))) ;;
  let input_idx := output_seqs in
  output_seqs <-
    model_generate
      {| gc_input_ids := input_idx;
         gc_attention_mask := new_input_attention_masks;
         gc_do_sample := true;
         gc_max_new_tokens := max_budget_cut - current_used_budget;
         gc_eos_token_id := eos_token_id;
         gc_pad_token_id := pad_token_id;
         gc_num_return_sequences := 1;
         gc_stopping_criteria :=
           [MatchingTokens matching_seq_stop_criteria;
            AnyEos eos_stop_criteria] |} ;;
  ret {| lv_output_seqs := output_seqs;
         lv_input_idx := input_idx;
         lv_attention_mask := new_input_attention_masks;
         lv_prompt_length := ncols input_idx |}.

(** The loop.  [fuel] bounds the number of passes; the guard reads
    [current_used_budget], which no pass assigns. *)
Fixpoint forcing_loop (fuel : nat) (v : LoopVars) : M LoopVars :=
  if current_used_budget <? min_budget then
    match fuel with
    | O => lift OutOfFuel
    | S fuel' => v' <- forcing_body v ;; forcing_loop fuel' v'
    end
  else ret v.

End Forcing.

Definition budget_forcing_gen
           (fuel : nat)
           (tokenizer : Tokenizer)
           (input_ids input_attention_masks : Tensor2)
           (eos_token_id pad_token_id : Z)
           (min_budget max_budget : Z)
           (replace_tokens : Dict) : M Tensor2 :=
  _ <- py_assert (128 <? max_budget - min_budget) ;;
  let max_budget_cut := max_budget - 128 in
  let input_idx := input_ids in
  let attention_mask := input_attention_masks in
  matching_seq_stop_criteria <-
    lift (MatchingTokensStoppingCriteria.__init__ tokenizer) ;;
  let eos_stop_criteria := AnyEosStoppingCriteria.__init__ eos_token_id in
  nl <- lift (dict_get replace_tokens NL) ;;
  wait <- lift (dict_get replace_tokens "Wait") ;;
  comma <- lift (dict_get replace_tokens ",") ;;
  let replacement_seq := float_tensor_long [nl; wait; comma] in
  let init_prompt_len := ncols input_idx in
  let prompt_length := ncols input_idx in
  (* 1. first round *)
  output_seqs <-
    model_generate
      {| gc_input_ids := input_idx;
         gc_attention_mask := attention_mask;
         gc_do_sample := true;
         gc_max_new_tokens := max_budget_cut;
         gc_eos_token_id := eos_token_id;
         gc_pad_token_id := pad_token_id;
         gc_num_return_sequences := 1;
         gc_stopping_criteria :=
           [MatchingTokens matching_seq_stop_criteria;
            AnyEos eos_stop_criteria] |} ;;
  (* 2. forcing loop *)
  let current_used_budget :=
    Z.of_nat (ncols output_seqs) - Z.of_nat init_prompt_len in
  v <- forcing_loop tokenizer matching_seq_stop_criteria eos_stop_criteria
                    replacement_seq replace_tokens eos_token_id pad_token_id
                    min_budget max_budget_cut current_used_budget fuel
                    {| lv_output_seqs := output_seqs;
                       lv_input_idx := input_idx;
                       lv_attention_mask := attention_mask;
                       lv_prompt_length := prompt_length |} ;;
  (* 3. final round, no stopping criteria *)
  new_input_attention_masks <-
    lift (cat_cols (lv_attention_mask v)
                   (ones_like (slice_from_col (lv_prompt_length v)
                                              (lv_output_seqs v)))) ;;
  model_generate
    {| gc_input_ids := lv_output_seqs v;
       gc_attention_mask := new_input_attention_masks;
       gc_do_sample := true;
       gc_max_new_tokens := max_budget - current_used_budget;
       gc_eos_token_id := eos_token_id;
       gc_pad_token_id := pad_token_id;
       gc_num_return_sequences := 1;
       gc_stopping_criteria := [] |}.

(* --------------------------------------------------------------- *)
(** *** HFRollout._generate_minibatch *)

(** [output_seqs] is a local variable that only one branch assigns: it is
    [None] while unbound, and reading it unbound raises
    [UnboundLocalError]. *)
Definition _generate_minibatch (fuel : nat) (self : HFRollout.t)
           (prompts : DataProto) : M RolloutBatch :=
  let config := HFRollout.config self in
  let idx := batch_input_ids prompts in
  let attention_mask := batch_attention_mask prompts in
  let eos_token_id := mi_eos_token_id (meta_info prompts) in
  let pad_token_id := mi_pad_token_id (meta_info prompts) in
  let batch_size := Z.of_nat (nrows idx) in
  let prompt_length := ncols idx in
  let do_sample :=
    get_or (mi_do_sample (meta_info prompts)) (cfg_do_sample config) in
  let response_length :=
    get_or (mi_response_length (meta_info prompts))
           (cfg_response_length config) in
  let num_return_sequences := if do_sample then cfg_n config else 1 in
  let validate := get_or (mi_validate (meta_info prompts)) false in
  output_seqs <-
    (if negb validate && cfg_do_budget_forcing config then
       _ <- budget_forcing_gen fuel (HFRollout.tokenizer self)
                               idx attention_mask
                               eos_token_id pad_token_id
                               (cfg_min_budget config)
                               (cfg_max_budget config)
                               (HFRollout.replacement_tokens self) ;;
       ret None
     else
       out <- model_generate
                {| gc_input_ids := idx;
                   gc_attention_mask := attention_mask;
                   gc_do_sample := do_sample;
                   gc_max_new_tokens := response_length;
                   gc_eos_token_id := eos_token_id;
                   gc_pad_token_id := pad_token_id;
                   gc_num_return_sequences := num_return_sequences;
                   gc_stopping_criteria := [] |} ;;
       ret (Some out)) ;;
  seq <- match output_seqs with
         | Some seq => ret seq
         | None => raise UnboundLocalError
         end ;;
  let batch_size :=
    if 1 <? num_return_sequences then batch_size * num_return_sequences
    else batch_size in
  let sequence_length :=
    Z.of_nat prompt_length + cfg_response_length config in
  let delta_length := sequence_length - Z.of_nat (ncols seq) in
  seq <-
    (if 0 <? delta_length then
       let delta_tokens :=
         {| ncols := Z.to_nat delta_length;
            rows := repeat (repeat pad_token_id (Z.to_nat delta_length))
                           (Z.to_nat batch_size) |} in
       lift (cat_cols seq delta_tokens)
     else ret seq) ;;
  _ <- py_assert (Z.of_nat (ncols seq) =? sequence_length) ;;
  let prompt := slice_to_col prompt_length seq in
  let response := slice_from_col prompt_length seq in
  ret {| out_prompts := prompt;
         out_responses := response;
         out_input_ids := seq |}.

End Rollout.

(* ================================================================= *)
(** ** llm.py: the vLLM wrapper *)

(** A [RequestOutput] with the token ids of its first completion
    ([output.outputs[0].token_ids]), which the engine hands out as a
    tuple. *)
Record RequestOutput : Type := mkRequestOutput {
  request_id : Z;              (* int(output.request_id) *)
  token_ids : list Z;
  finished : bool
}.

(** [sorted(outputs, key=lambda x: int(x.request_id))] (stable) *)
Fixpoint insert_by_id (o : RequestOutput) (l : list RequestOutput)
  : list RequestOutput :=
  match l with
  | [] => [o]
  | o' :: l' =>
      if request_id o <=? request_id o' then o :: l
      else o' :: insert_by_id o l'
  end.

Definition sorted_by_id (l : list RequestOutput) : list RequestOutput :=
  fold_right insert_by_id [] l.

(** [t[-3:] = value] on a tuple [t]: a tuple supports no item
    assignment. *)
Definition tuple_set_last_three (t value : list Z) : result (list Z) :=
  Err TypeError.

(** [r] for each element, in order, up to the first failure. *)
Fixpoint rmap {A B} (f : A -> result B) (l : list A) : result (list B) :=
  match l with
  | [] => Ok []
  | x :: l' => (y <-- f x ;; ys <-- rmap f l' ;; Ok (y :: ys))%res
  end.

(** [pad_sequence(seqs, batch_first=True, padding_value=pad)] *)
Definition pad_sequence (seqs : list (list Z)) (pad : Z) : result Tensor2 :=
  match seqs with
  | [] => Err RuntimeError
  | _ =>
      let width := fold_right Nat.max 0%nat (map (@length Z) seqs) in
      Ok {| ncols := width;
            rows := map (fun s => s ++ repeat pad (width - length s)) seqs |}
  end.

Module LLM.

Record t : Type := mk {
  do_budget_forcing : bool;
  min_budget : option Z;
  think_tokens : list (list Z);
  eos_token_id : option Z;
  replacement_tokens : list Z;
  tokenizer : Tokenizer           (* self.llm_engine.tokenizer *)
}.

Definition removed_vision_keys : list string :=
  ["image_token_id"; "image_feature_size"; "image_input_shape";
   "image_input_type"]%string.

(** [__init__]: [kwargs] are the names of the extra keyword arguments,
    [tokenizer_cls_ok] the outcome of the [isinstance] test.  The engine
    built on the last lines is the section variable below. *)
Definition __init__ (tokenizer : Tokenizer) (kwargs : list string)
           (tokenizer_cls_ok : bool) : result t :=
  if existsb (fun k => existsb (String.eqb k) kwargs) removed_vision_keys
  then Err TypeError
  else if negb tokenizer_cls_ok then Err ValueError
  else
    let vocab := get_vocab tokenizer in
    let left_token_ids := left_matching_token_ids vocab in
    let right_token_ids := right_matching_token_ids vocab in
    let think_tokens := think_triples left_token_ids right_token_ids in
    let wait_ids := encode tokenizer "Wait" in
    if negb (length wait_ids =? 1)%nat then Err AssertionError
    else
      (wait_token_id <-- py_first wait_ids ;;
       new_line_id <-- py_first (encode tokenizer NL) ;;
       comma_id <-- py_first (encode tokenizer ",") ;;
       Ok {| do_budget_forcing := false;
             min_budget := None;
             think_tokens := think_tokens;
             eos_token_id := tok_eos_token_id tokenizer;
             replacement_tokens := [new_line_id; wait_token_id; comma_id];
             tokenizer := tokenizer |})%res.

(** The body of [for output in step_outputs] up to [if output.finished]:
    the budget-forcing rewrite of one step output. *)
Definition force_output (self : t) (output : RequestOutput)
  : result RequestOutput :=
  let ids := token_ids output in
  if do_budget_forcing self then
    match min_budget self with
    | None => Err TypeError     (* len(token_ids) < None *)
    | Some min_budget =>
        if (Z.of_nat (length ids) <? min_budget) && (3 <=? length ids)%nat
        then
          if py_in (lastn 3 ids) (think_tokens self)
          then
            (new_ids <-- tuple_set_last_three
                           (token_ids output)
                           (lastn 3 ids ++ replacement_tokens self) ;;
             Ok {| request_id := request_id output;
                   token_ids := new_ids;
                   finished := finished output |})%res
          else Ok output
        else Ok output
    end
  else Ok output.

Fixpoint for_step_outputs (self : t) (step_outputs outputs : list RequestOutput)
  : result (list RequestOutput) :=
  match step_outputs with
  | [] => Ok outputs
  | output :: rest =>
      (output' <-- force_output self output ;;
       let outputs :=
         if finished output' then outputs ++ [output'] else outputs in
       for_step_outputs self rest outputs)%res
  end.

Section Engine.

(** [self.llm_engine] *)
Variable E : Type.
Variable has_unfinished_requests : E -> bool.
Variable step : E -> list RequestOutput * E.

Fixpoint engine_loop (fuel : nat) (self : t) (e : E)
         (outputs : list RequestOutput)
  : result (list RequestOutput) * E :=
  if has_unfinished_requests e then
    match fuel with
    | O => (OutOfFuel, e)
    | S fuel' =>
        let (step_outputs, e') := step e in
        match for_step_outputs self step_outputs outputs with
        | Ok outputs' => engine_loop fuel' self e' outputs'
        | Err err => (Err err, e')
        | OutOfFuel => (OutOfFuel, e')
        end
    end
  else (Ok outputs, e).

(** The outputs of [_run_engine] in request order, before
    [_post_process_outputs] pads them. *)
Definition _run_engine_outputs (fuel : nat) (self : t) (e : E)
  : result (list RequestOutput) * E :=
  match engine_loop fuel self e [] with
  | (Ok outputs, e') => (Ok (sorted_by_id outputs), e')
  | r => r
  end.

(** The token side of [_post_process_outputs]. *)
Definition _post_process_outputs (self : t)
           (request_outputs : list RequestOutput) : result Tensor2 :=
  (output_token_ids <-- rmap int64_tensor (map token_ids request_outputs) ;;
   match tok_pad_token_id (tokenizer self),
         tok_eos_token_id (tokenizer self) with
   | Some pad, _ => pad_sequence output_token_ids pad
   | None, Some eos => pad_sequence output_token_ids eos
   | None, None => Err TypeError
   end)%res.

Definition _run_engine (fuel : nat) (self : t) (e : E)
  : result Tensor2 * E :=
  match _run_engine_outputs fuel self e with
  | (Ok outputs, e') => (_post_process_outputs self outputs, e')
  | (Err err, e') => (Err err, e')
  | (OutOfFuel, e') => (OutOfFuel, e')
  end.

(** [generate]: [e] is the engine once the prompts have been added. *)
Definition generate (fuel : nat) (self : t) (e : E)
           (do_budget_forcing : bool) (min_budget : option Z)
  : result Tensor2 * E :=
  let self :=
    {| do_budget_forcing := do_budget_forcing;
       min_budget := min_budget;
       think_tokens := think_tokens self;
       eos_token_id := eos_token_id self;
       replacement_tokens := replacement_tokens self;
       tokenizer := tokenizer self |} in
  match do_budget_forcing, min_budget with
  | true, None => (Err ValueError, e)
  | _, _ => _run_engine fuel self e
  end.

End Engine.

End LLM.

(* ================================================================= *)
(** ** train.py: the sampling parameters handed to the trainer *)

(** [d.get(k)] on keyword arguments with values of any type. *)
Fixpoint kw_get {V} (d : list (string * V)) (k : string) : option V :=
  match d with
  | [] => None
  | (k', v) :: d' => if String.eqb k' k then Some v else kw_get d' k
  end.

Section SamplingParams.

(** [vllm.SamplingParams]: the values of keyword arguments and the
    constructor, which may reject them. *)
Variable V : Type.
Variable SamplingParams : Type.
Variable SamplingParams_new : list (string * V) -> result SamplingParams.

(** [vLLMSamplingParams], applied to its keyword arguments: the object
    with its [_set_kwargs] attribute. *)
Definition vLLMSamplingParams (kwargs : list (string * V))
  : result (SamplingParams * list (string * V)) :=
  let attach_kwargs :=
    filter (fun kv => negb (String.eqb (fst kv) "max_tokens")) kwargs in
  (sampling_params <-- SamplingParams_new kwargs ;;
   Ok (sampling_params, attach_kwargs))%res.

End SamplingParams.

(* ================================================================= *)
(** ** Concrete collaborators used by the examples *)

(** A generator that appends [min k max_new_tokens] tokens [7] to every
    row of its input. *)
Definition gen_k (k : nat) (g : unit) (c : GenCall) : Tensor2 * unit :=
  let n := Nat.min k (Z.to_nat (gc_max_new_tokens c)) in
  ({| ncols := ncols (gc_input_ids c) + n;
      rows := map (fun r => r ++ repeat 7 n) (rows (gc_input_ids c)) |}, g).

Definition w0 : World unit := {| gen_state := tt; calls := [] |}.

(** A small vocabulary in the style of Qwen's: one token ending with the
    opening fragment, one starting with the closing fragment. *)
Definition qwen_like : Tokenizer :=
  {| encode := fun s =>
       if String.eqb s "Wait" then [14190]
       else if String.eqb s NL then [198]
       else if String.eqb s "," then [11]
       else [];
     get_vocab := [("</", 522); ("think", 26865); (">", 29); ("a", 64);
                   ("></", 1472); (">>", 2452)]%string;
     tok_eos_token_id := Some 151645;
     tok_pad_token_id := Some 151643 |}.

(** A vocabulary without any token ending with the opening fragment. *)
Definition no_open_fragment : Tokenizer :=
  {| encode := encode qwen_like;
     get_vocab := [("a", 1); (">", 2)]%string;
     tok_eos_token_id := Some 151645;
     tok_pad_token_id := Some 151643 |}.


Definition qwen_replace_tokens : Dict :=
  [(NL, 198); ("Wait"%string, 14190); (","%string, 11)].

Definition prompt4 : Tensor2 := {| ncols := 4; rows := [[1; 2; 3; 4]] |}.
Definition mask4 : Tensor2 := {| ncols := 4; rows := [[1; 1; 1; 1]] |}.

(** A scripted engine: the step outputs still to come. *)
Definition script_unfinished (e : list (list RequestOutput)) : bool :=
  match e with [] => false | _ => true end.

Definition script_step (e : list (list RequestOutput))
  : list RequestOutput * list (list RequestOutput) :=
  match e with [] => ([], []) | s :: e' => (s, e') end.

(** A tokenizer whose end-of-sequence token is also a closing-fragment
    candidate, so that one tail can be a terminator and end with EOS. *)
Definition eos_closes : Tokenizer :=
  {| encode := encode qwen_like;
     get_vocab := get_vocab qwen_like;
     tok_eos_token_id := Some 29;
     tok_pad_token_id := Some 151643 |}.

Definition qwen_patterns : Tensor2 :=
  {| ncols := 3;
     rows := [[522; 26865; 29]; [522; 26865; 1472]; [522; 26865; 2452];
              [1472; 26865; 29]; [1472; 26865; 1472]; [1472; 26865; 2452]] |}.

(** The wrapper that [LLM.__init__] builds for [qwen_like], with budget
    forcing switched on as [generate] does. *)
Definition qwen_llm (do_budget_forcing : bool) (min_budget : option Z) : LLM.t :=
  {| LLM.do_budget_forcing := do_budget_forcing;
     LLM.min_budget := min_budget;
     LLM.think_tokens := rows qwen_patterns;
     LLM.eos_token_id := Some 151645;
     LLM.replacement_tokens := [198; 14190; 11];
     LLM.tokenizer := qwen_like |}.

(** A vocabulary with an id of 25 bits. *)
Definition wide_ids : Tokenizer :=
  {| encode := encode qwen_like;
     get_vocab := [("</", 16777217); (">", 29)]%string;
     tok_eos_token_id := Some 151645;
     tok_pad_token_id := Some 151643 |}.

(** A tokenizer that encodes the newline as nothing. *)
Definition no_newline : Tokenizer :=
  {| encode := fun s => if String.eqb s NL then [] else encode qwen_like s;
     get_vocab := get_vocab qwen_like;
     tok_eos_token_id := Some 151645;
     tok_pad_token_id := Some 151643 |}.

(** A validation batch, with an optional response length of its own. *)
Definition validation_prompts (response_length : option Z) : DataProto :=
  {| batch_input_ids := prompt4;
     batch_attention_mask := mask4;
     meta_info := {| mi_eos_token_id := 151645; mi_pad_token_id := 151643;
                     mi_do_sample := None;
                     mi_response_length := response_length;
                     mi_validate := Some true |} |}.

(** Two engine steps: request 1 finishes first, request 0 second. *)
Definition two_step_script : list (list RequestOutput) :=
  [[mkRequestOutput 1 [5; 6] true; mkRequestOutput 0 [7] false];
   [mkRequestOutput 0 [7; 8; 9] true]].

(* ================================================================= *)
(** ** Predicates used by the statements *)

(** A computation that never raises [AssertionError]. *)
Definition no_assert {A} (r : result A) : Prop := r <> Err AssertionError.

Definition no_assertM {G A} (m : M G A) : Prop :=
  forall w, no_assert (fst (m w)).

(** What the two writes of a round leave behind: the tail of every
    matching row is the replacement run, every other row is untouched. *)
Definition spliced (t : Tensor2) (patterns : list (list Z)) (repl : list Z)
  : Tensor2 :=
  {| ncols := ncols t;
     rows := map (fun r => if py_in (lastn 3 r) patterns
                           then droplast 3 r ++ repl else r)
                 (rows t) |}.

(** The loop state while the one-token generator runs. *)
Definition one_row (v : LoopVars) : Prop :=
  wf (lv_output_seqs v)
  /\ (3 <= ncols (lv_output_seqs v))%nat
  /\ nrows (lv_output_seqs v) = 1%nat
  /\ nrows (lv_attention_mask v) = 1%nat.

Definition qwen_criteria : MatchingTokensStoppingCriteria.t :=
  MatchingTokensStoppingCriteria.mk qwen_like qwen_patterns.

(** What the callers rely on from [model.generate]: the output extends
    the input by at most [max_new_tokens] columns. *)
Definition respects_max_new_tokens {G} (generate : G -> GenCall -> Tensor2 * G)
  : Prop :=
  forall g c,
    (ncols (gc_input_ids c) <= ncols (fst (generate g c)))%nat
    /\ Z.of_nat (ncols (fst (generate g c)))
       <= Z.of_nat (ncols (gc_input_ids c)) + Z.max 0 (gc_max_new_tokens c).

Definition forcing_config : RolloutConfig :=
  {| cfg_do_sample := true; cfg_response_length := 8; cfg_n := 1;
     cfg_do_budget_forcing := true; cfg_min_budget := 2;
     cfg_max_budget := 200 |}.

Definition forcing_rollout : HFRollout.t :=
  HFRollout.mk qwen_like forcing_config qwen_replace_tokens.

Definition training_prompts : DataProto :=
  {| batch_input_ids := prompt4;
     batch_attention_mask := mask4;
     meta_info := {| mi_eos_token_id := 151645; mi_pad_token_id := 151643;
                     mi_do_sample := None; mi_response_length := None;
                     mi_validate := None |} |}.

(** The decoded token ends with the opening fragment, starts with the
    closing fragment. *)
Definition ends_with_open (tok : string) : Prop :=
  exists q, tok = (q ++ "</")%string.

Definition starts_with_close (tok : string) : Prop :=
  exists q, tok = (">" ++ q)%string.

(** What a terminator is, read off the vocabulary. *)
Definition is_terminator (vocab : list (string * Z)) (tail : list Z) : Prop :=
  exists a c,
    tail = [a; think_token_id; c]
    /\ (exists tok, In (tok, a) vocab /\ ends_with_open tok)
    /\ (exists tok, In (tok, c) vocab /\ starts_with_close tok).

(** The same, with the two ids as a 32-bit float tensor returns them. *)
Definition is_rounded_terminator (vocab : list (string * Z)) (tail : list Z)
  : Prop :=
  exists a c,
    tail = [float32_long a; think_token_id; float32_long c]
    /\ (exists tok, In (tok, a) vocab /\ ends_with_open tok)
    /\ (exists tok, In (tok, c) vocab /\ starts_with_close tok).

(** The attention mask of a call covers its input exactly. *)
Definition aligned (c : GenCall) : Prop :=
  ncols (gc_attention_mask c) = ncols (gc_input_ids c).

(** The generator returns its input extended to the right. *)
Definition appends_columns {G} (generate : G -> GenCall -> Tensor2 * G) : Prop :=
  forall g c, (ncols (gc_input_ids c) <= ncols (fst (generate g c)))%nat.

(** The loop variables between two passes. *)
Definition mask_covers_context (v : LoopVars) : Prop :=
  ncols (lv_attention_mask v) = lv_prompt_length v
  /\ (lv_prompt_length v <= ncols (lv_output_seqs v))%nat.

(** The step outputs of the first [n] engine steps, and the engine after
    them. *)
Fixpoint engine_steps {E} (step : E -> list RequestOutput * E)
         (n : nat) (e : E) : list RequestOutput * E :=
  match n with
  | O => ([], e)
  | S n' =>
      let (step_outputs, e') := step e in
      let (later, e'') := engine_steps step n' e' in
      (step_outputs ++ later, e'')
  end.

(** The engine has unfinished requests before each of its first [n] steps
    and none after them. *)
Fixpoint runs_for {E} (has_unfinished_requests : E -> bool)
         (step : E -> list RequestOutput * E) (n : nat) (e : E) : bool :=
  match n with
  | O => negb (has_unfinished_requests e)
  | S n' =>
      has_unfinished_requests e
      && runs_for has_unfinished_requests step n' (snd (step e))
  end.

(** The rewrite of [_run_engine] lets this step output through. *)
Definition passes (self : LLM.t) (output : RequestOutput) : bool :=
  match LLM.force_output self output with
  | Ok _ => true
  | _ => false
  end.

(** An id [torch.tensor] can hold. *)
Definition in_int64 (z : Z) : Prop := - 2 ^ 63 <= z < 2 ^ 63.

(** The order of the final sort. *)
Definition by_request_id (a b : RequestOutput) : Prop :=
  request_id a <= request_id b.

(* ================================================================= *)
(** ** The spec's match predicate, in its own words *)

(** [matchBatch]: for each sequence whose length is at least 3, true iff
    its last 3 tokens equal any pattern of the set; shorter sequences are
    non-matching. *)
Definition spec_matchBatch (tails : Tensor2) (patternSet : list (list Z))
  : list bool :=
  map (fun s => (3 <=? length s)%nat && py_in (lastn 3 s) patternSet)
      (rows tails).

(** [matchEos]: true iff the final generated token equals [eosId]. *)
Definition spec_matchEos (tails : Tensor2) (eosId : Z) : list bool :=
  map (fun s => last s 0 =? eosId) (rows tails).

(* ================================================================= *)
(** ** Lists *)

Lemma list_eqb_eq (a b : list Z) : list_eqb a b = true <-> a = b.
Proof.
  revert b; induction a as [|x a IH]; intros [|y b]; simpl;
    try (split; [discriminate | congruence]); try tauto.
  rewrite andb_true_iff, Z.eqb_eq, IH. split.
  - intros [-> ->]; reflexivity.
  - intros E; inversion E; auto.
Qed.

Lemma list_eqb_refl (a : list Z) : list_eqb a a = true.
Proof. apply list_eqb_eq; reflexivity. Qed.

Lemma py_in_In (x : list Z) (l : list (list Z)) : py_in x l = true <-> In x l.
Proof.
  unfold py_in. rewrite existsb_exists. split.
  - intros (y & Hy & E). apply list_eqb_eq in E. subst; assumption.
  - intros H. exists x. split; [assumption | apply list_eqb_refl].
Qed.

Lemma forallb_zip_eqb (a b : list Z) :
  length a = length b ->
  forallb (fun x => x) (zip_with Z.eqb a b) = list_eqb a b.
Proof.
  unfold zip_with. revert b; induction a as [|x a IH]; intros [|y b] H;
    simpl in *; try discriminate; try reflexivity.
  rewrite IH by congruence. reflexivity.
Qed.

Lemma existsb_id_map {A} (f : A -> bool) (l : list A) :
  existsb (fun b => b) (map f l) = existsb f l.
Proof. induction l as [|x l IH]; simpl; [reflexivity | now rewrite IH]. Qed.

Lemma lastn_length {A} (n : nat) (l : list A) :
  length (lastn n l) = Nat.min n (length l).
Proof. unfold lastn. rewrite length_skipn. lia. Qed.

Lemma droplast_lastn {A} (n : nat) (l : list A) :
  droplast n l ++ lastn n l = l.
Proof. unfold droplast, lastn. apply firstn_skipn. Qed.

Lemma droplast_length {A} (n : nat) (l : list A) :
  length (droplast n l) = (length l - n)%nat.
Proof. unfold droplast. rewrite length_firstn. lia. Qed.

Lemma lastn_app_exact {A} (n : nat) (a b : list A) :
  length b = n -> lastn n (a ++ b) = b.
Proof.
  intros H. unfold lastn. rewrite length_app, H.
  replace (length a + n - n)%nat with (length a + 0)%nat by lia.
  rewrite skipn_app, Nat.add_0_r, skipn_all.
  replace (length a - length a)%nat with 0%nat by lia. reflexivity.
Qed.

Lemma droplast_app_exact {A} (n : nat) (a b : list A) :
  length b = n -> droplast n (a ++ b) = a.
Proof.
  intros H. unfold droplast. rewrite length_app, H.
  replace (length a + n - n)%nat with (length a + 0)%nat by lia.
  rewrite Nat.add_0_r, firstn_app, firstn_all.
  replace (length a - length a)%nat with 0%nat by lia.
  simpl. apply app_nil_r.
Qed.

Lemma zip_with_length {A B C} (f : A -> B -> C) a b :
  length (zip_with f a b) = Nat.min (length a) (length b).
Proof. unfold zip_with. now rewrite length_map, length_combine. Qed.

Lemma zip_with_map_r {A B C} (f : A -> B -> C) (g : A -> B) (a : list A) :
  zip_with f a (map g a) = map (fun x => f x (g x)) a.
Proof.
  unfold zip_with. induction a as [|x a IH]; simpl; [reflexivity|].
  now rewrite IH.
Qed.

Lemma existsb_ext_in {A} (f g : A -> bool) (l : list A) :
  (forall x, In x l -> f x = g x) -> existsb f l = existsb g l.
Proof.
  induction l as [|x l IH]; simpl; intros H; [reflexivity|].
  rewrite (H x) by auto. rewrite IH by auto. reflexivity.
Qed.

Lemma expand_row_same (n : nat) (r : list Z) :
  length r = n -> expand_row n r = r.
Proof. intros H. unfold expand_row. now rewrite H, Nat.eqb_refl. Qed.

(* ================================================================= *)
(** ** stop_criteria.py: the match predicates *)

(** On sequences of at least three tokens and three-token patterns the
    broadcast comparison is the membership test of the tail. *)
Lemma get_matching_seq_mask_rows (input_ids pattern : Tensor2) :
  wf input_ids -> wf pattern ->
  ncols pattern = 3%nat -> (3 <= ncols input_ids)%nat ->
  get_matching_seq_mask input_ids pattern
  = Ok (map (fun s => py_in (lastn 3 s) (rows pattern)) (rows input_ids)).
Proof.
  intros Hwf Hpwf Hp HL. unfold get_matching_seq_mask. cbn [slice_last_cols ncols rows].
  replace (Nat.min 3 (ncols input_ids)) with 3%nat by lia.
  rewrite Hp. cbn [broadcastable broadcast_dim Nat.eqb orb].
  f_equal. rewrite !map_map. apply map_ext_in. intros r Hr.
  rewrite map_map, existsb_id_map. unfold py_in.
  apply existsb_ext_in. intros p Hin.
  unfold wf in *. rewrite Forall_forall in Hwf, Hpwf.
  assert (Hlr : length (lastn 3 r) = 3%nat).
  { rewrite lastn_length, (Hwf r Hr). lia. }
  assert (Hlp : length p = 3%nat) by (rewrite (Hpwf p Hin); assumption).
  rewrite !expand_row_same by assumption.
  apply forallb_zip_eqb. congruence.
Qed.

(** The comparison in [get_matching_eos_mask] never looks at [eos]. *)
Lemma get_matching_eos_mask_constant (input_ids : Tensor2) (eos : option Z) :
  (0 < ncols input_ids)%nat ->
  get_matching_eos_mask input_ids eos = Ok (MaskScalar false).
Proof.
  intros H. unfold get_matching_eos_mask, select_last_col.
  destruct (ncols input_ids =? 0)%nat eqn:E.
  - apply Nat.eqb_eq in E. lia.
  - reflexivity.
Qed.

Lemma get_matching_eos_mask_no_vector (input_ids : Tensor2) (eos : option Z)
      (m : list bool) :
  get_matching_eos_mask input_ids eos <> Ok (MaskVec m).
Proof.
  unfold get_matching_eos_mask, select_last_col.
  destruct (ncols input_ids =? 0)%nat; simpl; discriminate.
Qed.

(** C4.  [get_matching_eos_mask] on a one-sequence batch whose last token
    is the end-of-sequence id 7: the spec's predicate marks the sequence,
    the function returns the plain boolean [False] and marks nothing. *)
Theorem get_matching_eos_mask_misses_eos_tail :
  get_matching_eos_mask {| ncols := 2; rows := [[5; 7]] |} (Some 7)
  = Ok (MaskScalar false)
  /\ spec_matchEos {| ncols := 2; rows := [[5; 7]] |} 7 = [true].
Proof. split; reflexivity. Qed.

(** C6, as stated, fails on a one-token sequence: the single token is
    broadcast against all three positions of the pattern. *)
Lemma get_matching_seq_mask_one_token_matches :
  get_matching_seq_mask {| ncols := 1; rows := [[7]] |}
                        {| ncols := 3; rows := [[7; 7; 7]] |}
  = Ok [true]
  /\ spec_matchBatch {| ncols := 1; rows := [[7]] |} [[7; 7; 7]] = [false].
Proof. split; reflexivity. Qed.

(** A two-token sequence has no mask at all: 2 does not broadcast with 3. *)
Lemma get_matching_seq_mask_two_tokens_raise :
  get_matching_seq_mask {| ncols := 2; rows := [[7; 7]] |}
                        {| ncols := 3; rows := [[7; 7; 7]] |}
  = Err RuntimeError.
Proof. reflexivity. Qed.

(** C6, amended.  On batches of sequences of at least three tokens and
    sets of three-token patterns, [get_matching_seq_mask] is true for a
    sequence exactly when its last three tokens equal some pattern; a
    sequence of exactly three tokens that form a pattern matches; and for
    batches of one or two tokens the stopping criterion's own length guard
    reports no match. *)
Theorem get_matching_seq_mask_matches_last_three :
  (forall input_ids pattern,
      wf input_ids -> wf pattern ->
      ncols pattern = 3%nat -> (3 <= ncols input_ids)%nat ->
      get_matching_seq_mask input_ids pattern
      = Ok (spec_matchBatch input_ids (rows pattern)))
  /\ (forall a b c pattern,
         wf pattern -> ncols pattern = 3%nat -> In [a; b; c] (rows pattern) ->
         get_matching_seq_mask {| ncols := 3; rows := [[a; b; c]] |} pattern
         = Ok [true])
  /\ (forall self input_ids,
         (1 <= ncols input_ids < 3)%nat ->
         MatchingTokensStoppingCriteria.__call__ self input_ids
         = Ok (map (fun _ => false) (rows input_ids))).
Proof.
  split; [|split].
  - intros input_ids pattern Hwf Hpwf Hp HL.
    rewrite get_matching_seq_mask_rows by assumption.
    f_equal. unfold spec_matchBatch. apply map_ext_in. intros r Hr.
    unfold wf in Hwf. rewrite Forall_forall in Hwf.
    replace (3 <=? length r)%nat with true; [reflexivity|].
    symmetry. apply Nat.leb_le. rewrite (Hwf r Hr). assumption.
  - intros a b c pattern Hpwf Hp Hin.
    rewrite get_matching_seq_mask_rows; try assumption.
    + cbn [rows map]. unfold lastn. cbn [length Nat.sub skipn].
      apply py_in_In in Hin. now rewrite Hin.
    + repeat constructor.
    + cbn. lia.
  - intros self input_ids [H1 H3].
    unfold MatchingTokensStoppingCriteria.__call__.
    replace (ncols input_ids <=? 3)%nat with true
      by (symmetry; apply Nat.leb_le; lia).
    unfold select_first_col.
    replace (ncols input_ids =? 0)%nat with false
      by (symmetry; apply Nat.eqb_neq; lia).
    cbn [rbind]. now rewrite map_map.
Qed.

Lemma get_matching_seq_mask_matches_last_three_witness :
  get_matching_seq_mask
    {| ncols := 4; rows := [[1; 522; 26865; 29]; [1; 2; 3; 4]] |}
    qwen_patterns
  = Ok [true; false]
  /\ get_matching_seq_mask {| ncols := 3; rows := [[522; 26865; 29]] |}
                           qwen_patterns
     = Ok [true]
  /\ MatchingTokensStoppingCriteria.__call__
       (MatchingTokensStoppingCriteria.mk qwen_like qwen_patterns)
       {| ncols := 2; rows := [[26865; 29]] |}
     = Ok [false].
Proof.
  destruct get_matching_seq_mask_matches_last_three as (H1 & H2 & H3).
  split; [|split].
  - apply (H1 {| ncols := 4; rows := [[1; 522; 26865; 29]; [1; 2; 3; 4]] |}
              qwen_patterns).
    + repeat constructor.
    + repeat constructor.
    + reflexivity.
    + simpl; lia.
  - apply (H2 522 26865 29 qwen_patterns).
    + repeat constructor.
    + reflexivity.
    + simpl; auto.
  - apply (H3 (MatchingTokensStoppingCriteria.mk qwen_like qwen_patterns)
              {| ncols := 2; rows := [[26865; 29]] |}).
    simpl; lia.
Defined.

(* ================================================================= *)
(** ** The terminator pattern set on a degenerate vocabulary *)

Lemma think_triples_nil (left right : list Z) :
  left = [] \/ right = [] -> think_triples left right = [].
Proof.
  unfold think_triples. intros [-> | ->]; [reflexivity|].
  induction left as [|l left IH]; simpl; [reflexivity | assumption].
Qed.

(** Without candidates on one side [torch.stack] receives no tensor. *)
Lemma stopping_criteria_init_degenerate (tokenizer : Tokenizer) :
  left_matching_token_ids (get_vocab tokenizer) = []
  \/ right_matching_token_ids (get_vocab tokenizer) = [] ->
  MatchingTokensStoppingCriteria.__init__ tokenizer = Err RuntimeError.
Proof.
  intros H. unfold MatchingTokensStoppingCriteria.__init__.
  now rewrite (think_triples_nil H).
Qed.

(** The vLLM wrapper keeps a plain list: on the same vocabulary its
    construction goes through and nothing is a terminator. *)
Lemma llm_init_degenerate (tokenizer : Tokenizer) (kwargs : list string)
      (ok : bool) (llm : LLM.t) :
  left_matching_token_ids (get_vocab tokenizer) = []
  \/ right_matching_token_ids (get_vocab tokenizer) = [] ->
  LLM.__init__ tokenizer kwargs ok = Ok llm ->
  LLM.think_tokens llm = []
  /\ forall tail, py_in tail (LLM.think_tokens llm) = false.
Proof.
  intros H. unfold LLM.__init__.
  rewrite (think_triples_nil H).
  destruct (existsb _ LLM.removed_vision_keys); [discriminate|].
  destruct (negb ok); [discriminate|].
  destruct (negb _); [discriminate|].
  destruct (py_first (encode tokenizer "Wait")); try discriminate.
  destruct (py_first (encode tokenizer NL)); try discriminate.
  destruct (py_first (encode tokenizer ",")); try discriminate.
  cbn [rbind]. intros E. inversion E; subst; clear E. cbn. auto.
Qed.

Lemma llm_init_no_open_fragment :
  exists llm, LLM.__init__ no_open_fragment [] true = Ok llm
              /\ LLM.think_tokens llm = [].
Proof. eexists; split; reflexivity. Qed.

(** C5.  A vocabulary with a token starting with the closing fragment but
    none ending with the opening fragment: the construction of the
    stopping criterion raises, and with it the budget-forced generation,
    before the generator is called. *)
Theorem stopping_criteria_init_raises_without_open_fragment :
  left_matching_token_ids (get_vocab no_open_fragment) = []
  /\ MatchingTokensStoppingCriteria.__init__ no_open_fragment
     = Err RuntimeError
  /\ budget_forcing_gen (gen_k 3) 0 no_open_fragment prompt4 mask4
                        151645 151643 2 200 qwen_replace_tokens w0
     = (Err RuntimeError, w0).
Proof. repeat split; reflexivity. Qed.

(* ================================================================= *)
(** ** The constructors and the continuation word *)

Lemma py_first_singleton (l : list Z) :
  length l = 1%nat -> exists x, l = [x] /\ py_first l = Ok x.
Proof.
  destruct l as [|x [|y l]]; simpl; intros H; try discriminate.
  exists x; auto.
Qed.





(* ================================================================= *)
(** ** budget_forcing_gen: which exceptions, and when *)

Lemma no_assert_rbind {A B} (r : result A) (k : A -> result B) :
  no_assert r -> (forall a, no_assert (k a)) -> no_assert (rbind r k).
Proof.
  unfold no_assert. intros Hr Hk. destruct r as [a| e |]; simpl.
  - apply Hk.
  - intros E. apply Hr. congruence.
  - discriminate.
Qed.

Lemma no_assert_dict_get (d : Dict) (k : string) : no_assert (dict_get d k).
Proof.
  unfold no_assert. induction d as [|[k' v] d IH]; simpl; [discriminate|].
  destruct (String.eqb k' k); [discriminate | assumption].
Qed.

Lemma no_assert_get_matching_seq_mask (a b : Tensor2) :
  no_assert (get_matching_seq_mask a b).
Proof.
  unfold no_assert, get_matching_seq_mask.
  destruct (broadcastable _ _); discriminate.
Qed.

Lemma no_assert_get_matching_eos_mask (a : Tensor2) (eos : option Z) :
  no_assert (get_matching_eos_mask a eos).
Proof.
  unfold no_assert, get_matching_eos_mask, select_last_col.
  destruct (ncols a =? 0)%nat; simpl; discriminate.
Qed.

Lemma no_assert_set_last_three (t : Tensor2) (m : list bool) (r : list Z) :
  no_assert (set_last_three t m r).
Proof.
  unfold no_assert, set_last_three.
  destruct (Nat.min 3 (ncols t) =? length r)%nat; discriminate.
Qed.

Lemma no_assert_set_last_col (t : Tensor2) (m : Mask) (v : Z) :
  no_assert (set_last_col t m v).
Proof.
  unfold no_assert, set_last_col. destruct m as [m|[|]].
  - destruct (ncols t =? 0)%nat; [discriminate|].
    destruct (negb _); discriminate.
  - destruct (nrows t =? 0)%nat; discriminate.
  - destruct (nrows t =? 0)%nat; discriminate.
Qed.

Lemma no_assert_cat_cols (a b : Tensor2) : no_assert (cat_cols a b).
Proof.
  unfold no_assert, cat_cols. destruct (nrows a =? nrows b)%nat; discriminate.
Qed.

Lemma no_assert_stopping_init (tokenizer : Tokenizer) :
  no_assert (MatchingTokensStoppingCriteria.__init__ tokenizer).
Proof.
  unfold no_assert, MatchingTokensStoppingCriteria.__init__, torch_stack.
  destruct (think_triples _ _) as [|t ts]; simpl; [discriminate|].
  destruct (_ && _); simpl; discriminate.
Qed.

Section RolloutFacts.

Variable G : Type.
Variable generate : G -> GenCall -> Tensor2 * G.

Lemma no_assertM_bind {A B} (m : M G A) (k : A -> M G B) :
  no_assertM m -> (forall a, no_assertM (k a)) -> no_assertM (bind m k).
Proof.
  intros Hm Hk w. unfold bind. specialize (Hm w).
  destruct (m w) as [[a| e |] w']; simpl in *.
  - apply Hk.
  - intros E. apply Hm. congruence.
  - discriminate.
Qed.

Lemma bind_ret {A B} (a : A) (k : A -> M G B) (w : World G) :
  bind (ret a) k w = k a w.
Proof. reflexivity. Qed.

Lemma no_assertM_lift {A} (r : result A) :
  no_assert r -> no_assertM (lift (G := G) r).
Proof. intros H w. exact H. Qed.

Lemma no_assertM_ret {A} (a : A) : no_assertM (ret (G := G) a).
Proof. intros w. discriminate. Qed.

Lemma no_assertM_model_generate (c : GenCall) :
  no_assertM (model_generate generate c).
Proof.
  intros w. unfold model_generate.
  destruct (generate (gen_state w) c). discriminate.
Qed.

Lemma no_assert_splice_tails tokenizer crit repl rt (t : Tensor2) :
  no_assert (splice_tails tokenizer crit repl rt t).
Proof.
  unfold splice_tails.
  apply no_assert_rbind; [apply no_assert_get_matching_seq_mask|]; intros.
  apply no_assert_rbind; [apply no_assert_get_matching_eos_mask|]; intros.
  apply no_assert_rbind; [apply no_assert_set_last_three|]; intros.
  apply no_assert_rbind; [apply no_assert_dict_get|]; intros.
  apply no_assert_set_last_col.
Qed.

Lemma no_assertM_forcing_body tokenizer crit ecrit repl rt eos pad cut used v :
  no_assertM (forcing_body generate tokenizer crit ecrit repl rt
                           eos pad cut used v).
Proof.
  unfold forcing_body.
  apply no_assertM_bind;
    [apply no_assertM_lift, no_assert_splice_tails|]; intros.
  apply no_assertM_bind;
    [apply no_assertM_lift, no_assert_cat_cols|]; intros.
  apply no_assertM_bind; [apply no_assertM_model_generate|]; intros.
  apply no_assertM_ret.
Qed.

Lemma no_assertM_forcing_loop tokenizer crit ecrit repl rt eos pad
      minb cut used fuel :
  forall v,
    no_assertM (forcing_loop generate tokenizer crit ecrit repl rt
                             eos pad minb cut used fuel v).
Proof.
  induction fuel as [|fuel IH]; intros v; simpl;
    destruct (used <? minb).
  - intros w; discriminate.
  - apply no_assertM_ret.
  - apply no_assertM_bind; [apply no_assertM_forcing_body | apply IH].
  - apply no_assertM_ret.
Qed.

(** C9.  [budget_forcing_gen] raises the assertion error exactly when
    [max_budget - min_budget <= 128], and then it hands the world back
    as it received it: the same generator state and no call recorded. *)
Theorem budget_forcing_gen_assertion
        (fuel : nat) (tokenizer : Tokenizer)
        (input_ids input_attention_masks : Tensor2)
        (eos_token_id pad_token_id min_budget max_budget : Z)
        (replace_tokens : Dict) (w : World G) :
  let run := budget_forcing_gen generate fuel tokenizer input_ids
                                input_attention_masks eos_token_id
                                pad_token_id min_budget max_budget
                                replace_tokens w in
  (fst run = Err AssertionError <-> max_budget - min_budget <= 128)
  /\ (max_budget - min_budget <= 128 -> snd run = w).
Proof.
  cbv zeta. unfold budget_forcing_gen.
  destruct (128 <? max_budget - min_budget) eqn:E.
  - apply Z.ltb_lt in E. split; [split|]; try lia.
    intros H. exfalso. revert H.
    unfold py_assert. rewrite bind_ret.
    match goal with
    | |- fst (?m w) = _ -> False => assert (Hm : no_assertM m)
    end.
    { apply no_assertM_bind;
        [apply no_assertM_lift, no_assert_stopping_init|]; intros.
      apply no_assertM_bind;
        [apply no_assertM_lift, no_assert_dict_get|]; intros.
      apply no_assertM_bind;
        [apply no_assertM_lift, no_assert_dict_get|]; intros.
      apply no_assertM_bind;
        [apply no_assertM_lift, no_assert_dict_get|]; intros.
      apply no_assertM_bind; [apply no_assertM_model_generate|]; intros.
      apply no_assertM_bind; [apply no_assertM_forcing_loop|]; intros.
      apply no_assertM_bind;
        [apply no_assertM_lift, no_assert_cat_cols|]; intros.
      apply no_assertM_model_generate. }
    apply Hm.
  - apply Z.ltb_ge in E. split; [split|]; intros; try assumption;
      reflexivity.
Qed.

End RolloutFacts.

Lemma budget_forcing_gen_assertion_witness :
  fst (budget_forcing_gen (gen_k 3) 5 qwen_like prompt4 mask4
                          151645 151643 300 400 qwen_replace_tokens w0)
  = Err AssertionError
  /\ snd (budget_forcing_gen (gen_k 3) 5 qwen_like prompt4 mask4
                             151645 151643 300 400 qwen_replace_tokens w0)
     = w0.
Proof.
  pose proof (budget_forcing_gen_assertion
                (gen_k 3) 5 qwen_like prompt4 mask4
                151645 151643 300 400 qwen_replace_tokens w0) as H.
  cbv zeta in H. destruct H as [[_ H1] H2].
  split; [apply H1 | apply H2]; lia.
Defined.

(* ================================================================= *)
(** ** The splice of one round *)

Lemma spliced_nrows t patterns repl : nrows (spliced t patterns repl) = nrows t.
Proof. unfold nrows, spliced. cbn. apply length_map. Qed.

Lemma spliced_wf t patterns repl :
  wf t -> length repl = 3%nat -> (3 <= ncols t)%nat ->
  wf (spliced t patterns repl).
Proof.
  unfold wf, spliced. cbn. intros H Hr HL.
  rewrite Forall_forall in *. intros r' Hin.
  apply in_map_iff in Hin. destruct Hin as (r & <- & Hin).
  specialize (H r Hin).
  destruct (py_in _ _); [|assumption].
  rewrite length_app, droplast_length, Hr. lia.
Qed.

Lemma splice_tails_ok tokenizer crit repl rt nl (t : Tensor2) :
  wf t -> (3 <= ncols t)%nat -> (1 <= nrows t)%nat ->
  wf (MatchingTokensStoppingCriteria.think_token_combo crit) ->
  ncols (MatchingTokensStoppingCriteria.think_token_combo crit) = 3%nat ->
  length repl = 3%nat ->
  dict_get rt NL = Ok nl ->
  splice_tails tokenizer crit repl rt t
  = Ok (spliced t
                (rows (MatchingTokensStoppingCriteria.think_token_combo crit))
                repl).
Proof.
  intros Hwf HL HB Hpwf Hp Hr Hnl. unfold splice_tails.
  rewrite get_matching_seq_mask_rows by assumption. cbn [rbind].
  rewrite get_matching_eos_mask_constant by lia. cbn [rbind].
  unfold set_last_three.
  replace (Nat.min 3 (ncols t)) with 3%nat by lia.
  rewrite Hr, Nat.eqb_refl. cbn [rbind]. rewrite Hnl. cbn [rbind].
  rewrite zip_with_map_r.
  unfold set_last_col, nrows. cbn [rows]. rewrite length_map.
  unfold nrows in HB.
  destruct (length (rows t)) eqn:E; [lia|]. reflexivity.
Qed.

(* ================================================================= *)
(** ** The Forcing loop *)

Section ForcingLoopFacts.

Variable G : Type.
Variable generate : G -> GenCall -> Tensor2 * G.

(** Once entered, the loop does not hand a value back, whatever the
    generator does and however many passes are allowed. *)
Lemma forcing_loop_never_returns tokenizer crit ecrit repl rt eos pad
      minb cut used fuel :
  used < minb ->
  forall v w v',
    fst (forcing_loop generate tokenizer crit ecrit repl rt
                      eos pad minb cut used fuel v w) <> Ok v'.
Proof.
  intros Hlt. apply Z.ltb_lt in Hlt.
  induction fuel as [|fuel IH]; intros v w v'; simpl; rewrite Hlt.
  - discriminate.
  - unfold bind.
    destruct (forcing_body _ _ _ _ _ _ _ _ _ _ _ _) as [[v1| e |] w1];
      simpl; try discriminate.
    apply IH.
Qed.

(** When the first round already covers [min_budget] the loop is
    skipped. *)
Lemma forcing_loop_skipped tokenizer crit ecrit repl rt eos pad
      minb cut used fuel v w :
  minb <= used ->
  forcing_loop generate tokenizer crit ecrit repl rt
               eos pad minb cut used fuel v w = (Ok v, w).
Proof.
  intros H. apply Z.ltb_ge in H. destruct fuel; simpl; rewrite H;
    reflexivity.
Qed.

End ForcingLoopFacts.

Lemma forcing_body_one_row (v : LoopVars) (w : World unit) :
  one_row v ->
  exists v' w',
    forcing_body (gen_k 1) qwen_like qwen_criteria
                 (AnyEosStoppingCriteria.__init__ 151645)
                 [198; 14190; 11] qwen_replace_tokens
                 151645 151643 272 1 v w = (Ok v', w')
    /\ one_row v'.
Proof.
  intros (Hwf & HL & HB & HA).
  unfold forcing_body, bind, lift.
  rewrite (@splice_tails_ok qwen_like qwen_criteria [198; 14190; 11]
                            qwen_replace_tokens 198);
    try assumption; try reflexivity; try lia;
    [|repeat constructor].
  set (t1 := spliced (lv_output_seqs v) _ _).
  assert (Hwf1 : wf t1) by (apply spliced_wf; auto).
  assert (HB1 : nrows t1 = 1%nat) by (unfold t1; now rewrite spliced_nrows).
  unfold cat_cols.
  replace (nrows (lv_attention_mask v)
           =? nrows (ones_like (slice_from_col (lv_prompt_length v) t1)))%nat
    with true.
  2:{ symmetry. apply Nat.eqb_eq. rewrite HA.
      unfold nrows, ones_like, slice_from_col. cbn [rows].
      rewrite !length_map. exact (eq_sym HB1). }
  unfold model_generate, gen_k, ret. cbn [gen_state gc_input_ids
                                          gc_max_new_tokens fst snd].
  eexists; eexists; split; [reflexivity|].
  unfold one_row. cbn [lv_output_seqs lv_attention_mask ncols rows].
  repeat split.
  - unfold wf in *. cbn [rows ncols]. rewrite Forall_forall in *.
    intros r' Hin. apply in_map_iff in Hin. destruct Hin as (r & <- & Hin).
    rewrite length_app, repeat_length, (Hwf1 r Hin). reflexivity.
  - unfold t1, spliced. cbn [ncols]. lia.
  - unfold nrows in *. cbn [rows]. now rewrite length_map.
  - unfold nrows in *. cbn [rows]. rewrite zip_with_length, HA.
    unfold ones_like, slice_from_col. cbn [rows]. rewrite !length_map, HB1.
    reflexivity.
Qed.

Lemma forcing_loop_one_row_diverges (fuel : nat) :
  forall v w,
    one_row v ->
    fst (forcing_loop (gen_k 1) qwen_like qwen_criteria
                      (AnyEosStoppingCriteria.__init__ 151645)
                      [198; 14190; 11] qwen_replace_tokens
                      151645 151643 256 272 1 fuel v w) = OutOfFuel.
Proof.
  induction fuel as [|fuel IH]; intros v w Hv.
  - reflexivity.
  - cbn [forcing_loop]. change (1 <? 256) with true. cbv iota.
    destruct (forcing_body_one_row w Hv) as (v' & w' & E & Hv').
    unfold bind. rewrite E. apply IH. assumption.
Qed.

(** C1.  A margin of 144, a four-token prompt and a generator that adds
    one token per round: the first round uses 1 of the 256 tokens, the
    Forcing loop is entered, and no number of passes ends it, neither with
    a sequence nor with an exception. *)
Theorem forcing_loop_runs_forever_on_slow_generator (fuel : nat) :
  fst (budget_forcing_gen (gen_k 1) fuel qwen_like prompt4 mask4
                          151645 151643 256 400 qwen_replace_tokens w0)
  = OutOfFuel.
Proof.
  unfold budget_forcing_gen.
  change (128 <? 400 - 256) with true. unfold py_assert. rewrite bind_ret.
  change (MatchingTokensStoppingCriteria.__init__ qwen_like)
    with (Ok qwen_criteria).
  unfold lift at 1. unfold bind at 1.
  change (dict_get qwen_replace_tokens NL) with (Ok 198).
  change (dict_get qwen_replace_tokens "Wait") with (Ok 14190).
  change (dict_get qwen_replace_tokens ",") with (Ok 11).
  unfold lift at 1. unfold bind at 1.
  unfold lift at 1. unfold bind at 1.
  unfold lift at 1. unfold bind at 1.
  unfold bind at 1. unfold model_generate at 1.
  cbn [gen_k gen_state w0 gc_input_ids gc_max_new_tokens fst snd prompt4
       ncols rows map].
  change (Z.to_nat (400 - 128)) with 272%nat.
  change (Nat.min 1 272) with 1%nat.
  change (Z.of_nat (4 + 1) - Z.of_nat 4) with 1.
  change (400 - 128) with 272.
  unfold bind at 1.
  match goal with
  | |- context [forcing_loop _ _ _ _ _ _ _ _ _ _ _ fuel ?v ?w] =>
      pose proof (@forcing_loop_one_row_diverges fuel v w) as H
  end.
  match type of H with
  | ?P -> _ => assert (HP : P)
  end.
  { unfold one_row. cbn. repeat split; try lia. repeat constructor. }
  specialize (H HP).
  destruct (forcing_loop _ _ _ _ _ _ _ _ _ _ _ fuel _ _) as [r w'].
  cbn [fst] in H. rewrite H. reflexivity.
Qed.

(** C8.  A row whose tail is a terminator pattern and whose last token is
    the end-of-sequence id: after the two writes of the round the row is
    its old prefix followed by the whole replacement run; the
    end-of-sequence write has changed none of the three tokens. *)
Theorem terminator_splice_survives_eos_write
        (tokenizer : Tokenizer) (crit : MatchingTokensStoppingCriteria.t)
        (repl : list Z) (rt : Dict) (nl eos : Z)
        (t : Tensor2) (i : nat) (row : list Z) :
  wf t -> (3 <= ncols t)%nat ->
  wf (MatchingTokensStoppingCriteria.think_token_combo crit) ->
  ncols (MatchingTokensStoppingCriteria.think_token_combo crit) = 3%nat ->
  length repl = 3%nat ->
  dict_get rt NL = Ok nl ->
  nth_error (rows t) i = Some row ->
  py_in (lastn 3 row)
        (rows (MatchingTokensStoppingCriteria.think_token_combo crit)) = true ->
  tok_eos_token_id tokenizer = Some eos ->
  last row 0 = eos ->
  exists t',
    splice_tails tokenizer crit repl rt t = Ok t'
    /\ nth_error (rows t') i = Some (droplast 3 row ++ repl)
    /\ lastn 3 (droplast 3 row ++ repl) = repl
    /\ length (droplast 3 row ++ repl) = length row.
Proof.
  intros Hwf HL Hpwf Hp Hr Hnl Hi Hm _ _.
  assert (HB : (1 <= nrows t)%nat).
  { unfold nrows. destruct (rows t); [destruct i; discriminate | simpl; lia]. }
  eexists. split; [eapply splice_tails_ok; eassumption|].
  unfold spliced. cbn [rows]. rewrite nth_error_map, Hi. cbn [option_map].
  rewrite Hm. repeat split.
  - now apply lastn_app_exact.
  - rewrite length_app, droplast_length, Hr.
    unfold wf in Hwf. rewrite Forall_forall in Hwf.
    specialize (Hwf row (nth_error_In _ _ Hi)). lia.
Qed.

Lemma terminator_splice_survives_eos_write_witness :
  exists t',
    splice_tails eos_closes
                 (MatchingTokensStoppingCriteria.mk eos_closes qwen_patterns)
                 [198; 14190; 11] qwen_replace_tokens
                 {| ncols := 4; rows := [[1; 522; 26865; 29]] |} = Ok t'
    /\ nth_error (rows t') 0 = Some [1; 198; 14190; 11]
    /\ lastn 3 [1; 198; 14190; 11] = [198; 14190; 11]
    /\ length [1; 198; 14190; 11] = 4%nat.
Proof.
  apply (@terminator_splice_survives_eos_write
           eos_closes
           (MatchingTokensStoppingCriteria.mk eos_closes qwen_patterns)
           [198; 14190; 11] qwen_replace_tokens 198 29
           {| ncols := 4; rows := [[1; 522; 26865; 29]] |}
           0%nat [1; 522; 26865; 29]).
  - repeat constructor.
  - simpl; lia.
  - repeat constructor.
  - reflexivity.
  - reflexivity.
  - reflexivity.
  - reflexivity.
  - reflexivity.
  - reflexivity.
  - reflexivity.
Defined.

(** The write of the HF path puts the replacement run where the
    terminator was and keeps the length of the row. *)
Lemma spliced_row_overwrites (t : Tensor2) (patterns : list (list Z))
      (repl : list Z) (i : nat) (row : list Z) :
  length repl = 3%nat -> (3 <= length row)%nat ->
  nth_error (rows t) i = Some row ->
  py_in (lastn 3 row) patterns = true ->
  exists row',
    nth_error (rows (spliced t patterns repl)) i = Some row'
    /\ lastn 3 row' = repl
    /\ droplast 3 row' = droplast 3 row
    /\ length row' = length row.
Proof.
  intros Hr HL Hi Hm. exists (droplast 3 row ++ repl).
  unfold spliced. cbn [rows]. rewrite nth_error_map, Hi. cbn [option_map].
  rewrite Hm. repeat split.
  - now apply lastn_app_exact.
  - now apply droplast_app_exact.
  - rewrite length_app, droplast_length, Hr. lia.
Qed.

(* ================================================================= *)
(** ** The vLLM path *)

(** C7.  The rewrite in [_run_engine] on a completion that ends with a
    terminator triple (positions 1 to 3) below a minimum budget of 10:
    the slice assignment targets the tuple handed out by the engine and
    raises, so the three positions are never given the replacement run
    and the whole call fails. *)
Theorem run_engine_rewrite_keeps_terminator :
  LLM.force_output (qwen_llm true (Some 10))
                   (mkRequestOutput 0 [64; 522; 26865; 29] false)
  = Err TypeError
  /\ py_in [522; 26865; 29] (LLM.think_tokens (qwen_llm true (Some 10)))
     = true
  /\ fst (LLM.generate script_unfinished script_step 1 (qwen_llm false None)
                       [[mkRequestOutput 0 [64; 522; 26865; 29] false]]
                       true (Some 10))
     = Err TypeError.
Proof. repeat split; reflexivity. Qed.

(** The rewrite hands back the output it was given, or nothing. *)
Lemma force_output_never_rewrites (self : LLM.t)
      (output output' : RequestOutput) :
  LLM.force_output self output = Ok output' -> output' = output.
Proof.
  unfold LLM.force_output.
  destruct (LLM.do_budget_forcing self); [|intros E; now inversion E].
  destruct (LLM.min_budget self) as [mb|]; [|discriminate].
  destruct (_ && _); [|intros E; now inversion E].
  destruct (py_in _ _); [discriminate | intros E; now inversion E].
Qed.

(** C3.  Budget forcing with a minimum of 10 on the vLLM path: a request
    that the engine reports finished after two tokens comes back with two
    tokens. *)
Theorem run_engine_returns_below_min_budget :
  fst (LLM.generate script_unfinished script_step 1 (qwen_llm false None)
                    [[mkRequestOutput 0 [5; 6] true]] true (Some 10))
  = Ok {| ncols := 2; rows := [[5; 6]] |}
  /\ LLM.__init__ qwen_like [] true = Ok (qwen_llm false None).
Proof. split; reflexivity. Qed.

(* ================================================================= *)
(** ** The HF path from start to end *)

Section BudgetForcingGenFacts.

Variable G : Type.
Variable generate : G -> GenCall -> Tensor2 * G.

(** X6.  When [budget_forcing_gen] returns, the loop was never entered, the
    generator ran exactly twice, and the number of new columns lies
    between the two budgets. *)
Lemma budget_forcing_gen_returns
      (fuel : nat) (tokenizer : Tokenizer)
      (input_ids input_attention_masks : Tensor2)
      (eos_token_id pad_token_id min_budget max_budget : Z)
      (replace_tokens : Dict) (w w' : World G) (out : Tensor2) :
  respects_max_new_tokens generate ->
  0 <= min_budget ->
  budget_forcing_gen generate fuel tokenizer input_ids
                     input_attention_masks eos_token_id pad_token_id
                     min_budget max_budget replace_tokens w = (Ok out, w') ->
  min_budget <= Z.of_nat (ncols out) - Z.of_nat (ncols input_ids)
              <= max_budget
  /\ length (calls w') = (2 + length (calls w))%nat.
Proof.
  intros Hgen Hmin. unfold budget_forcing_gen.
  destruct (128 <? max_budget - min_budget) eqn:E;
    [|cbn; discriminate].
  apply Z.ltb_lt in E. unfold py_assert. rewrite bind_ret.
  unfold bind at 1, lift at 1.
  destruct (MatchingTokensStoppingCriteria.__init__ tokenizer)
    as [crit| |]; [|cbn; discriminate..].
  unfold bind at 1, lift at 1.
  destruct (dict_get replace_tokens NL) as [nl| |]; [|cbn; discriminate..].
  unfold bind at 1, lift at 1.
  destruct (dict_get replace_tokens "Wait") as [wt| |];
    [|cbn; discriminate..].
  unfold bind at 1, lift at 1.
  destruct (dict_get replace_tokens ",") as [cm| |]; [|cbn; discriminate..].
  unfold bind at 1, model_generate at 1.
  match goal with
  | |- context [generate (gen_state w) ?c] =>
      pose proof (Hgen (gen_state w) c) as H1;
      destruct (generate (gen_state w) c) as [first g1]
  end.
  cbn [fst gc_input_ids gc_max_new_tokens] in H1.
  unfold bind at 1.
  destruct (Z_lt_ge_dec (Z.of_nat (ncols first) - Z.of_nat (ncols input_ids))
                        min_budget) as [Hlt | Hge].
  - match goal with
    | |- context [forcing_loop ?a ?b ?c ?d ?e ?f ?g ?h ?i ?j ?k fuel ?v ?w'] =>
        pose proof (@forcing_loop_never_returns
                      G a b c d e f g h i j k fuel Hlt v w') as Hnr;
        destruct (forcing_loop a b c d e f g h i j k fuel v w')
          as [[v1| e1 |] w1]
    end; try (cbn; discriminate).
    exfalso. apply (Hnr v1). reflexivity.
  - rewrite forcing_loop_skipped by lia.
    cbn [lv_attention_mask lv_prompt_length lv_output_seqs].
    unfold bind at 1, lift at 1.
    destruct (cat_cols _ _) as [masks| |]; [|cbn; discriminate..].
    unfold model_generate.
    cbn [gen_state calls].
    match goal with
    | |- context [generate g1 ?c] =>
        pose proof (Hgen g1 c) as H2;
        destruct (generate g1 c) as [final g2]
    end.
    cbn [fst snd gc_input_ids gc_max_new_tokens calls length] in *.
    intros R. inversion R; subst; clear R.
    split; [lia | reflexivity].
Qed.

(** With budget forcing on, [_generate_minibatch] reads [output_seqs]
    without ever having assigned it. *)
Lemma generate_minibatch_forcing_branch
      (fuel : nat) (self : HFRollout.t) (prompts : DataProto)
      (w : World G) :
  get_or (mi_validate (meta_info prompts)) false = false ->
  cfg_do_budget_forcing (HFRollout.config self) = true ->
  (forall out,
      fst (budget_forcing_gen
             generate fuel (HFRollout.tokenizer self)
             (batch_input_ids prompts) (batch_attention_mask prompts)
             (mi_eos_token_id (meta_info prompts))
             (mi_pad_token_id (meta_info prompts))
             (cfg_min_budget (HFRollout.config self))
             (cfg_max_budget (HFRollout.config self))
             (HFRollout.replacement_tokens self) w) = Ok out ->
      fst (_generate_minibatch generate fuel self prompts w)
      = Err UnboundLocalError)
  /\ (forall b,
         fst (_generate_minibatch generate fuel self prompts w) <> Ok b).
Proof.
  intros Hv Hbf. unfold _generate_minibatch. rewrite Hv, Hbf.
  cbn [negb andb]. unfold bind.
  destruct (budget_forcing_gen _ _ _ _ _ _ _ _ _ _ _) as [[o| e |] w1];
    cbn; split; intros; try discriminate; reflexivity.
Qed.

End BudgetForcingGenFacts.

(** C2.  A training batch with budget forcing on and a generator that
    covers the minimum budget in its first round: the budget-forced
    generation returns its sequence (prompt and six new tokens), and the
    entry point raises instead of returning it. *)
Theorem generate_minibatch_loses_forced_sequences :
  HFRollout.__init__ qwen_like forcing_config = Ok forcing_rollout
  /\ fst (budget_forcing_gen (gen_k 3) 0 qwen_like prompt4 mask4
                             151645 151643 2 200 qwen_replace_tokens w0)
     = Ok {| ncols := 10; rows := [[1; 2; 3; 4; 7; 7; 7; 7; 7; 7]] |}
  /\ fst (_generate_minibatch (gen_k 3) 0 forcing_rollout training_prompts w0)
     = Err UnboundLocalError.
Proof. repeat split; reflexivity. Qed.

(* ================================================================= *)
(** ** Strings and the vocabulary scan *)

Lemma startswith_iff (s p : string) :
  startswith s p = true <-> exists q, s = (p ++ q)%string.
Proof.
  unfold startswith. revert s.
  induction p as [|a p IH]; intros [|b s]; simpl.
  - split; [intros _; now exists EmptyString | reflexivity].
  - split; [intros _; now exists (String b s) | reflexivity].
  - split; [discriminate | intros (q & Hq); discriminate].
  - destruct (ascii_dec a b) as [->|Hne].
    + rewrite IH. split; intros (q & Hq); exists q; congruence.
    + split; [discriminate|]. intros (q & Hq). inversion Hq. congruence.
Qed.

Lemma string_app_assoc (a b c : string) :
  ((a ++ b) ++ c)%string = (a ++ (b ++ c))%string.
Proof. induction a; simpl; congruence. Qed.

Lemma string_rev_app_spec (s acc : string) :
  string_rev_app s acc = (string_rev s ++ acc)%string.
Proof.
  unfold string_rev. revert acc. induction s as [|c s IH]; intros acc; simpl.
  - reflexivity.
  - rewrite IH. rewrite (IH (String c EmptyString)).
    rewrite string_app_assoc. reflexivity.
Qed.

Lemma append_nil_r (s : string) : (s ++ "")%string = s.
Proof. induction s; simpl; congruence. Qed.

Lemma string_rev_append (a b : string) :
  string_rev (a ++ b) = (string_rev b ++ string_rev a)%string.
Proof.
  induction a as [|c a IH]; simpl.
  - now rewrite append_nil_r.
  - unfold string_rev at 1 3. simpl. rewrite !string_rev_app_spec, IH.
    now rewrite string_app_assoc.
Qed.

Lemma string_rev_involutive (s : string) : string_rev (string_rev s) = s.
Proof.
  induction s as [|c s IH]; [reflexivity|].
  unfold string_rev at 2. simpl. rewrite string_rev_app_spec.
  rewrite string_rev_append, IH. reflexivity.
Qed.

Lemma endswith_iff (s p : string) :
  endswith s p = true <-> exists q, s = (q ++ p)%string.
Proof.
  unfold endswith. change (String.prefix (string_rev p) (string_rev s))
    with (startswith (string_rev s) (string_rev p)).
  rewrite startswith_iff. split; intros (q & Hq).
  - exists (string_rev q).
    rewrite <- (string_rev_involutive s), Hq, string_rev_append.
    now rewrite string_rev_involutive.
  - exists (string_rev q). now rewrite Hq, string_rev_append.
Qed.

Lemma left_matching_token_ids_iff (vocab : list (string * Z)) (id : Z) :
  In id (left_matching_token_ids vocab)
  <-> exists tok, In (tok, id) vocab /\ ends_with_open tok.
Proof.
  unfold left_matching_token_ids. rewrite in_map_iff. split.
  - intros ([tok i] & Hi & Hin). simpl in Hi. subst i.
    apply filter_In in Hin. destruct Hin as [Hin He]. simpl in He.
    exists tok. split; [assumption|]. now apply endswith_iff.
  - intros (tok & Hin & He). exists (tok, id). split; [reflexivity|].
    apply filter_In. split; [assumption|]. simpl. now apply endswith_iff.
Qed.

Lemma right_matching_token_ids_iff (vocab : list (string * Z)) (id : Z) :
  In id (right_matching_token_ids vocab)
  <-> exists tok, In (tok, id) vocab /\ starts_with_close tok.
Proof.
  unfold right_matching_token_ids. rewrite in_map_iff. split.
  - intros ([tok i] & Hi & Hin). simpl in Hi. subst i.
    apply filter_In in Hin. destruct Hin as [Hin He]. simpl in He.
    exists tok. split; [assumption|]. now apply startswith_iff.
  - intros (tok & Hin & He). exists (tok, id). split; [reflexivity|].
    apply filter_In. split; [assumption|]. simpl. now apply startswith_iff.
Qed.

Lemma think_triples_In (left right : list Z) (t : list Z) :
  In t (think_triples left right)
  <-> exists l r, In l left /\ In r right /\ t = [l; think_token_id; r].
Proof.
  unfold think_triples. rewrite in_map_iff. split.
  - intros ([l r] & <- & Hin). apply in_prod_iff in Hin.
    exists l, r. simpl. tauto.
  - intros (l & r & Hl & Hr & ->). exists (l, r). split; [reflexivity|].
    apply in_prod_iff. tauto.
Qed.

Lemma think_triples_length (left right : list Z) :
  length (think_triples left right) = (length left * length right)%nat.
Proof. unfold think_triples. now rewrite length_map, length_prod. Qed.

Lemma think_triples_rows (left right : list Z) :
  Forall (fun r => length r = 3%nat) (think_triples left right).
Proof.
  apply Forall_forall. intros t Ht. apply think_triples_In in Ht.
  destruct Ht as (l & r & _ & _ & ->). reflexivity.
Qed.

Lemma round_half_even_small (p z : Z) :
  Z.log2 (Z.abs z) + 1 <= p -> round_half_even p z = z.
Proof.
  intros H. unfold round_half_even. cbv zeta.
  apply Z.leb_le in H. now rewrite H.
Qed.

(** Integers below 2^24 in magnitude pass through a float unchanged. *)
Lemma float32_long_exact (z : Z) : Z.abs z < 2 ^ 24 -> float32_long z = z.
Proof.
  intros H.
  assert (Hl : Z.log2 (Z.abs z) < 24).
  { destruct (Z.eq_dec (Z.abs z) 0) as [-> | Hne]; [reflexivity|].
    apply Z.log2_lt_pow2; lia. }
  unfold float32_long.
  rewrite (@round_half_even_small 53 z) by lia.
  apply round_half_even_small. lia.
Qed.

Lemma float32_long_think_token_id :
  float32_long think_token_id = think_token_id.
Proof. reflexivity. Qed.

Lemma torch_stack_uniform (n : nat) (ts : list (list Z)) :
  ts <> [] -> Forall (fun r => length r = n) ts ->
  torch_stack ts = Ok {| ncols := n; rows := ts |}.
Proof.
  intros Hne Hall. unfold torch_stack. destruct ts as [|t ts']; [congruence|].
  replace (forallb (fun r => (length r =? length t)%nat) (t :: ts')) with true.
  - inversion Hall; subst. reflexivity.
  - symmetry. apply forallb_forall. intros r Hin. apply Nat.eqb_eq.
    rewrite Forall_forall in Hall.
    rewrite (Hall r Hin), (Hall t (or_introl eq_refl)). reflexivity.
Qed.

Lemma float_think_triples_rows (left right : list Z) :
  Forall (fun r => length r = 3%nat)
         (map float_tensor_long (think_triples left right)).
Proof.
  apply Forall_forall. intros r Hr. apply in_map_iff in Hr.
  destruct Hr as (t & <- & Ht).
  pose proof (think_triples_rows left right) as Hall.
  rewrite Forall_forall in Hall. unfold float_tensor_long.
  rewrite length_map. now apply Hall.
Qed.

Lemma stopping_criteria_init_rows (tokenizer : Tokenizer)
      (crit : MatchingTokensStoppingCriteria.t) :
  MatchingTokensStoppingCriteria.__init__ tokenizer = Ok crit ->
  MatchingTokensStoppingCriteria.think_token_combo crit
  = {| ncols := 3;
       rows := map float_tensor_long
                   (think_triples
                      (left_matching_token_ids (get_vocab tokenizer))
                      (right_matching_token_ids (get_vocab tokenizer))) |}
  /\ MatchingTokensStoppingCriteria.tokenizer crit = tokenizer.
Proof.
  unfold MatchingTokensStoppingCriteria.__init__.
  destruct (think_triples _ _) as [|t ts] eqn:E; [discriminate|].
  rewrite (@torch_stack_uniform 3);
    [| discriminate | rewrite <- E; apply float_think_triples_rows].
  cbn [rbind]. intros R; inversion R; subst; clear R. auto.
Qed.

(** X3.  [MatchingTokensStoppingCriteria.__init__] succeeds exactly on
    vocabularies with a candidate on both sides, and then its pattern
    tensor is well formed with three columns and as many rows as the
    product of the two candidate counts. *)
Theorem stopping_criteria_init_iff (tokenizer : Tokenizer) :
  ((exists crit, MatchingTokensStoppingCriteria.__init__ tokenizer = Ok crit)
   <-> left_matching_token_ids (get_vocab tokenizer) <> []
       /\ right_matching_token_ids (get_vocab tokenizer) <> [])
  /\ (forall crit,
         MatchingTokensStoppingCriteria.__init__ tokenizer = Ok crit ->
         let combo := MatchingTokensStoppingCriteria.think_token_combo crit in
         wf combo /\ ncols combo = 3%nat
         /\ nrows combo
            = (length (left_matching_token_ids (get_vocab tokenizer))
               * length (right_matching_token_ids (get_vocab tokenizer)))%nat).
Proof.
  split; [split|].
  - intros (crit & H). split; intros E;
      rewrite stopping_criteria_init_degenerate in H by auto; discriminate.
  - intros [HL HR]. unfold MatchingTokensStoppingCriteria.__init__.
    pose proof (think_triples_length
                  (left_matching_token_ids (get_vocab tokenizer))
                  (right_matching_token_ids (get_vocab tokenizer))) as Hlen.
    rewrite (@torch_stack_uniform 3).
    + eexists; reflexivity.
    + destruct (think_triples _ _); [|discriminate]. simpl in Hlen.
      destruct (left_matching_token_ids _); [congruence|].
      destruct (right_matching_token_ids _); [congruence|]. simpl in Hlen.
      discriminate.
    + apply float_think_triples_rows.
  - intros crit H. cbv zeta.
    destruct (stopping_criteria_init_rows _ H) as [-> _].
    unfold wf, nrows. cbn [rows ncols]. split; [|split].
    + apply float_think_triples_rows.
    + reflexivity.
    + rewrite length_map. apply think_triples_length.
Qed.

Lemma stopping_criteria_init_iff_witness :
  (exists crit, MatchingTokensStoppingCriteria.__init__ qwen_like = Ok crit)
  /\ nrows (MatchingTokensStoppingCriteria.think_token_combo qwen_criteria)
     = 6%nat.
Proof.
  split.
  - apply (proj1 (stopping_criteria_init_iff qwen_like)).
    split; discriminate.
  - apply (proj2 (stopping_criteria_init_iff qwen_like) qwen_criteria).
    reflexivity.
Defined.

Lemma llm_init_think_tokens (tokenizer : Tokenizer) kwargs ok (llm : LLM.t) :
  LLM.__init__ tokenizer kwargs ok = Ok llm ->
  LLM.think_tokens llm
  = think_triples (left_matching_token_ids (get_vocab tokenizer))
                  (right_matching_token_ids (get_vocab tokenizer)).
Proof.
  unfold LLM.__init__.
  destruct (existsb _ LLM.removed_vision_keys); [discriminate|].
  destruct (negb ok); [discriminate|].
  destruct (negb _); [discriminate|].
  destruct (py_first (encode tokenizer "Wait")); try discriminate.
  destruct (py_first (encode tokenizer NL)); try discriminate.
  destruct (py_first (encode tokenizer ",")); try discriminate.
  cbn [rbind]. intros E. inversion E; subst; clear E. reflexivity.
Qed.

Lemma think_triples_is_terminator (vocab : list (string * Z)) (tail : list Z) :
  py_in tail (think_triples (left_matching_token_ids vocab)
                            (right_matching_token_ids vocab)) = true
  <-> is_terminator vocab tail.
Proof.
  rewrite py_in_In, think_triples_In. unfold is_terminator.
  split; intros (a & c & H).
  - destruct H as (Ha & Hc & ->). exists a, c.
    rewrite <- left_matching_token_ids_iff, <- right_matching_token_ids_iff.
    auto.
  - destruct H as (-> & Ha & Hc). exists a, c.
    rewrite left_matching_token_ids_iff, right_matching_token_ids_iff. auto.
Qed.

Lemma float_think_triples_is_rounded (vocab : list (string * Z))
      (tail : list Z) :
  py_in tail (map float_tensor_long
                  (think_triples (left_matching_token_ids vocab)
                                 (right_matching_token_ids vocab))) = true
  <-> is_rounded_terminator vocab tail.
Proof.
  rewrite py_in_In, in_map_iff. unfold is_rounded_terminator. split.
  - intros (t & <- & Ht). apply think_triples_In in Ht.
    destruct Ht as (a & c & Ha & Hc & ->). exists a, c.
    rewrite <- left_matching_token_ids_iff, <- right_matching_token_ids_iff.
    cbn [float_tensor_long map]. rewrite float32_long_think_token_id. auto.
  - intros (a & c & -> & Ha & Hc). exists [a; think_token_id; c]. split.
    + cbn [float_tensor_long map]. now rewrite float32_long_think_token_id.
    + apply think_triples_In. exists a, c.
      rewrite left_matching_token_ids_iff, right_matching_token_ids_iff. auto.
Qed.

(** The float tensor of the HF constructor rounds an id of 25 bits; the
    list of the vLLM constructor keeps it. *)
Lemma hf_patterns_round_wide_ids :
  (exists crit,
      MatchingTokensStoppingCriteria.__init__ wide_ids = Ok crit
      /\ rows (MatchingTokensStoppingCriteria.think_token_combo crit)
         = [[16777216; 26865; 29]])
  /\ (exists llm,
         LLM.__init__ wide_ids [] true = Ok llm
         /\ LLM.think_tokens llm = [[16777217; 26865; 29]]).
Proof. split; eexists; split; reflexivity. Qed.

(** X4.  For the vLLM constructor a tail belongs to the pattern set
    exactly when it is the id of a vocabulary token ending with the
    opening fragment, then 26865, then the id of a vocabulary token
    starting with the closing fragment.  For the HF constructor, on a
    vocabulary with ids below 2^62 in magnitude, the two ids appear as
    rounded by the 32-bit float tensor they pass through; when every id
    of the vocabulary is below 2^24 in magnitude the two pattern sets are
    the same. *)
Theorem terminator_patterns_from_vocabulary (tokenizer : Tokenizer) :
  (forall kwargs ok llm,
      LLM.__init__ tokenizer kwargs ok = Ok llm ->
      forall tail,
        py_in tail (LLM.think_tokens llm) = true
        <-> is_terminator (get_vocab tokenizer) tail)
  /\ ((forall tok id, In (tok, id) (get_vocab tokenizer) -> Z.abs id < 2 ^ 62) ->
      forall crit,
        MatchingTokensStoppingCriteria.__init__ tokenizer = Ok crit ->
        forall tail,
          py_in tail
                (rows (MatchingTokensStoppingCriteria.think_token_combo crit))
          = true <-> is_rounded_terminator (get_vocab tokenizer) tail)
  /\ ((forall tok id, In (tok, id) (get_vocab tokenizer) -> Z.abs id < 2 ^ 24) ->
      forall tail,
        is_rounded_terminator (get_vocab tokenizer) tail
        <-> is_terminator (get_vocab tokenizer) tail).
Proof.
  split; [|split].
  - intros kwargs ok llm H tail. rewrite (llm_init_think_tokens _ _ _ H).
    apply think_triples_is_terminator.
  - intros _ crit H tail. destruct (stopping_criteria_init_rows _ H) as [-> _].
    cbn [rows]. apply float_think_triples_is_rounded.
  - intros Hsmall tail. unfold is_rounded_terminator, is_terminator.
    split; intros (a & c & -> & (ta & Ha & Ea) & (tc & Hc & Ec));
      exists a, c.
    + rewrite (@float32_long_exact a) by (eapply Hsmall; eassumption).
      rewrite (@float32_long_exact c) by (eapply Hsmall; eassumption).
      repeat split; eauto.
    + rewrite (@float32_long_exact a) by (eapply Hsmall; eassumption).
      rewrite (@float32_long_exact c) by (eapply Hsmall; eassumption).
      repeat split; eauto.
Qed.

Lemma terminator_patterns_from_vocabulary_witness :
  (py_in [1472; 26865; 2452] (LLM.think_tokens (qwen_llm false None)) = true
   <-> is_terminator (get_vocab qwen_like) [1472; 26865; 2452])
  /\ (py_in [1472; 26865; 2452]
            (rows (MatchingTokensStoppingCriteria.think_token_combo
                     qwen_criteria)) = true
      <-> is_rounded_terminator (get_vocab qwen_like) [1472; 26865; 2452])
  /\ (is_rounded_terminator (get_vocab qwen_like) [1472; 26865; 2452]
      <-> is_terminator (get_vocab qwen_like) [1472; 26865; 2452]).
Proof.
  destruct (terminator_patterns_from_vocabulary qwen_like) as (H1 & H2 & H3).
  split; [|split].
  - apply (H1 [] true (qwen_llm false None)). reflexivity.
  - apply H2 with (crit := qwen_criteria); [|reflexivity].
    intros tok id Hin. cbn in Hin.
    repeat (destruct Hin as [Hin | Hin];
            [inversion Hin; subst; cbn; lia|]).
    destruct Hin.
  - apply H3. intros tok id Hin. cbn in Hin.
    repeat (destruct Hin as [Hin | Hin];
            [inversion Hin; subst; cbn; lia|]).
    destruct Hin.
Defined.

(** X5.  Listing the vocabulary in another order does not change which
    tails the pattern set recognises. *)
Theorem terminator_patterns_order_independent
        (vocab vocab' : list (string * Z)) (tail : list Z) :
  Permutation vocab vocab' ->
  py_in tail (think_triples (left_matching_token_ids vocab)
                            (right_matching_token_ids vocab))
  = py_in tail (think_triples (left_matching_token_ids vocab')
                              (right_matching_token_ids vocab')).
Proof.
  intros HP. apply eq_true_iff_eq. rewrite !think_triples_is_terminator.
  unfold is_terminator.
  split; intros (a & c & -> & (ta & Ha & Ea) & (tc & Hc & Ec));
    exists a, c; split; try reflexivity; split.
  - exists ta; split; [eapply Permutation_in; eauto | assumption].
  - exists tc; split; [eapply Permutation_in; eauto | assumption].
  - exists ta; split;
      [eapply Permutation_in; [apply Permutation_sym|]; eauto | assumption].
  - exists tc; split;
      [eapply Permutation_in; [apply Permutation_sym|]; eauto | assumption].
Qed.

Lemma terminator_patterns_order_independent_witness :
  py_in [522; 26865; 29]
        (think_triples
           (left_matching_token_ids [("</", 522); (">", 29)]%string)
           (right_matching_token_ids [("</", 522); (">", 29)]%string))
  = py_in [522; 26865; 29]
          (think_triples
             (left_matching_token_ids [(">", 29); ("</", 522)]%string)
             (right_matching_token_ids [(">", 29); ("</", 522)]%string)).
Proof.
  apply terminator_patterns_order_independent. apply perm_swap.
Defined.

(* ================================================================= *)
(** ** The two stopping criteria *)

Lemma map_const_repeat {A B} (b : B) (l : list A) :
  map (fun _ => b) l = repeat b (length l).
Proof. induction l; simpl; congruence. Qed.

Lemma zip_with_map_map {A B C D} (f : B -> C -> D) (g : A -> B) (h : A -> C)
      (l : list A) :
  zip_with f (map g l) (map h l) = map (fun x => f (g x) (h x)) l.
Proof.
  unfold zip_with. induction l as [|x l IH]; simpl; [reflexivity|].
  now rewrite IH.
Qed.

Lemma select_last_col_ok (t : Tensor2) :
  (0 < ncols t)%nat -> select_last_col t = Ok (map (fun r => last r 0) (rows t)).
Proof.
  intros H. unfold select_last_col.
  destruct (ncols t =? 0)%nat eqn:E; [apply Nat.eqb_eq in E; lia | reflexivity].
Qed.

Lemma select_first_col_ok (t : Tensor2) :
  (0 < ncols t)%nat -> select_first_col t = Ok (map (fun r => hd 0 r) (rows t)).
Proof.
  intros H. unfold select_first_col.
  destruct (ncols t =? 0)%nat eqn:E; [apply Nat.eqb_eq in E; lia | reflexivity].
Qed.

(** X1.  [AnyEosStoppingCriteria.__call__] raises on sequences without
    tokens; otherwise every entry of its result is the same boolean, true
    exactly when some sequence of the batch ends with one of the
    end-of-sequence ids. *)
Theorem any_eos_call_stops_whole_batch
        (self : AnyEosStoppingCriteria.t) (input_ids : Tensor2) :
  (ncols input_ids = 0%nat ->
   AnyEosStoppingCriteria.__call__ self input_ids = Err IndexError)
  /\ ((0 < ncols input_ids)%nat ->
      exists stop : bool,
        AnyEosStoppingCriteria.__call__ self input_ids
        = Ok (repeat stop (nrows input_ids))
        /\ (stop = true
            <-> exists r, In r (rows input_ids)
                          /\ In (last r 0)
                                (AnyEosStoppingCriteria.eos_token_id self))).
Proof.
  split.
  - intros H. unfold AnyEosStoppingCriteria.__call__, select_last_col.
    now rewrite H.
  - intros H. unfold AnyEosStoppingCriteria.__call__.
    rewrite select_last_col_ok, select_first_col_ok by assumption.
    cbn [rbind].
    set (stop := existsb _ (AnyEosStoppingCriteria.eos_token_id self)).
    exists stop. split.
    + unfold nrows.
      destruct stop; rewrite map_const_repeat, length_map; reflexivity.
    + unfold stop. rewrite existsb_exists. split.
      * intros (eos & He & Hx). apply existsb_exists in Hx.
        destruct Hx as (x & Hx & Heq). apply in_map_iff in Hx.
        destruct Hx as (r & <- & Hr). apply Z.eqb_eq in Heq.
        exists r. split; [assumption|]. now rewrite Heq.
      * intros (r & Hr & He). exists (last r 0). split; [assumption|].
        apply existsb_exists. exists (last r 0). split.
        -- apply in_map_iff. now exists r.
        -- apply Z.eqb_refl.
Qed.

Lemma any_eos_call_stops_whole_batch_witness :
  AnyEosStoppingCriteria.__call__
    (AnyEosStoppingCriteria.__init__ 151645)
    {| ncols := 0; rows := [[]] |} = Err IndexError
  /\ exists stop : bool,
      AnyEosStoppingCriteria.__call__
        (AnyEosStoppingCriteria.__init__ 151645)
        {| ncols := 2; rows := [[1; 2]; [3; 151645]; [5; 6]] |}
      = Ok (repeat stop 3)
      /\ (stop = true
          <-> exists r, In r [[1; 2]; [3; 151645]; [5; 6]]
                        /\ In (last r 0) [151645]).
Proof.
  split.
  - apply (proj1 (any_eos_call_stops_whole_batch
                    (AnyEosStoppingCriteria.__init__ 151645)
                    {| ncols := 0; rows := [[]] |})).
    reflexivity.
  - apply (proj2 (any_eos_call_stops_whole_batch
                    (AnyEosStoppingCriteria.__init__ 151645)
                    {| ncols := 2; rows := [[1; 2]; [3; 151645]; [5; 6]] |})).
    simpl. lia.
Defined.

(** X2.  [MatchingTokensStoppingCriteria.__call__] never stops a batch of
    one to three tokens, whatever the tokens; on longer batches a row is
    stopped exactly when some row of the batch ends with a pattern and the
    row itself does not end with the tokenizer's end-of-sequence id. *)
Theorem matching_tokens_call_spec
        (self : MatchingTokensStoppingCriteria.t) (input_ids : Tensor2) :
  let patterns :=
    rows (MatchingTokensStoppingCriteria.think_token_combo self) in
  let any_match :=
    existsb (fun r => py_in (lastn 3 r) patterns) (rows input_ids) in
  let ends_with_eos (r : list Z) :=
    match tok_eos_token_id (MatchingTokensStoppingCriteria.tokenizer self) with
    | Some eos => last r 0 =? eos
    | None => false
    end in
  ((1 <= ncols input_ids <= 3)%nat ->
   MatchingTokensStoppingCriteria.__call__ self input_ids
   = Ok (repeat false (nrows input_ids)))
  /\ (wf input_ids ->
      wf (MatchingTokensStoppingCriteria.think_token_combo self) ->
      ncols (MatchingTokensStoppingCriteria.think_token_combo self) = 3%nat ->
      (3 < ncols input_ids)%nat ->
      MatchingTokensStoppingCriteria.__call__ self input_ids
      = Ok (map (fun r => any_match && negb (ends_with_eos r))
                (rows input_ids))).
Proof.
  cbv zeta. split.
  - intros [H1 H3]. unfold MatchingTokensStoppingCriteria.__call__.
    replace (ncols input_ids <=? 3)%nat with true
      by (symmetry; apply Nat.leb_le; lia).
    rewrite select_first_col_ok by lia. cbn [rbind].
    unfold nrows. now rewrite map_const_repeat, length_map.
  - intros Hwf Hpwf Hp HL. unfold MatchingTokensStoppingCriteria.__call__.
    replace (ncols input_ids <=? 3)%nat with false
      by (symmetry; apply Nat.leb_gt; lia).
    rewrite get_matching_seq_mask_rows by (assumption || lia).
    cbn [rbind]. rewrite existsb_id_map.
    rewrite select_first_col_ok by lia.
    destruct (existsb _ (rows input_ids)); cbn [rbind andb].
    + rewrite select_last_col_ok by lia. cbn [rbind]. f_equal.
      destruct (tok_eos_token_id _) as [eos|]; cbn [opt_obj tensor_eq mask_fill].
      * rewrite !map_map.
        rewrite (zip_with_map_map
                   (fun (x hit : bool) => if hit then false else x)
                   (fun _ => true) (fun r => last r 0 =? eos)).
        apply map_ext. intros r. now destruct (last r 0 =? eos).
      * now rewrite map_map.
    + now rewrite map_map.
Qed.

Lemma matching_tokens_call_spec_witness :
  MatchingTokensStoppingCriteria.__call__
    qwen_criteria {| ncols := 3; rows := [[522; 26865; 29]] |}
  = Ok [false]
  /\ MatchingTokensStoppingCriteria.__call__
       (MatchingTokensStoppingCriteria.mk eos_closes qwen_patterns)
       {| ncols := 4;
          rows := [[1; 522; 26865; 29]; [1; 2; 3; 4]; [5; 522; 26865; 2452]] |}
     = Ok [false; true; true].
Proof.
  split.
  - apply (proj1 (matching_tokens_call_spec
                    qwen_criteria {| ncols := 3; rows := [[522; 26865; 29]] |})).
    simpl. lia.
  - apply (proj2 (matching_tokens_call_spec
                    (MatchingTokensStoppingCriteria.mk eos_closes qwen_patterns)
                    {| ncols := 4;
                       rows := [[1; 522; 26865; 29]; [1; 2; 3; 4];
                                [5; 522; 26865; 2452]] |})).
    + repeat constructor.
    + repeat constructor.
    + reflexivity.
    + simpl. lia.
Defined.

(* ================================================================= *)
(** ** budget_forcing_gen: the calls it makes *)

Lemma set_last_three_ncols t m r t' :
  set_last_three t m r = Ok t' -> ncols t' = ncols t.
Proof.
  unfold set_last_three. destruct (_ =? _)%nat; [|discriminate].
  intros E; inversion E; reflexivity.
Qed.

Lemma set_last_col_ncols t m v t' :
  set_last_col t m v = Ok t' -> ncols t' = ncols t.
Proof.
  unfold set_last_col. destruct m as [m|[|]].
  - destruct (ncols t =? 0)%nat; [discriminate|].
    destruct (negb _); [discriminate|]. intros E; inversion E; reflexivity.
  - destruct (nrows t =? 0)%nat; [discriminate|].
    intros E; inversion E; reflexivity.
  - destruct (nrows t =? 0)%nat; [discriminate|].
    intros E; inversion E; reflexivity.
Qed.

Lemma splice_tails_ncols tokenizer crit repl rt t t' :
  splice_tails tokenizer crit repl rt t = Ok t' -> ncols t' = ncols t.
Proof.
  unfold splice_tails.
  destruct (get_matching_seq_mask _ _); cbn [rbind]; try discriminate.
  destruct (get_matching_eos_mask _ _); cbn [rbind]; try discriminate.
  destruct (set_last_three _ _ _) as [t1| |] eqn:E1; cbn [rbind];
    try discriminate.
  destruct (dict_get _ _); cbn [rbind]; try discriminate.
  intros E2. apply set_last_col_ncols in E2. apply set_last_three_ncols in E1.
  congruence.
Qed.

Lemma cat_cols_ncols a b c :
  cat_cols a b = Ok c -> ncols c = (ncols a + ncols b)%nat.
Proof.
  unfold cat_cols. destruct (_ =? _)%nat; [|discriminate].
  intros E; inversion E; reflexivity.
Qed.

Section Alignment.

Variable G : Type.
Variable generate : G -> GenCall -> Tensor2 * G.
Hypothesis Happ : appends_columns generate.

Lemma forcing_body_aligned tokenizer crit ecrit repl rt eos pad cut used v w :
  mask_covers_context v ->
  Forall aligned (calls w) ->
  Forall aligned
         (calls (snd (forcing_body generate tokenizer crit ecrit repl rt
                                   eos pad cut used v w)))
  /\ forall v',
      fst (forcing_body generate tokenizer crit ecrit repl rt
                        eos pad cut used v w) = Ok v' ->
      mask_covers_context v'.
Proof.
  intros [Hm Hp] Hw. unfold forcing_body, bind, lift.
  destruct (splice_tails _ _ _ _ _) as [t1| |] eqn:E1; cbn [fst snd];
    try (split; [assumption | discriminate]).
  apply splice_tails_ncols in E1.
  destruct (cat_cols _ _) as [m1| |] eqn:E2; cbn [fst snd];
    try (split; [assumption | discriminate]).
  apply cat_cols_ncols in E2. cbn [ones_like slice_from_col ncols] in E2.
  unfold model_generate, ret.
  match goal with
  | |- context [generate (gen_state w) ?c] =>
      pose proof (Happ (gen_state w) c) as Hc;
      destruct (generate (gen_state w) c) as [out g1]
  end.
  cbn [fst snd gc_input_ids calls] in *. split.
  - constructor; [|assumption]. unfold aligned.
    cbn [gc_attention_mask gc_input_ids]. lia.
  - intros v' R. inversion R; subst; clear R.
    unfold mask_covers_context.
    cbn [lv_attention_mask lv_prompt_length lv_output_seqs]. lia.
Qed.

Lemma forcing_loop_aligned tokenizer crit ecrit repl rt eos pad minb cut used
      fuel :
  forall v w,
    mask_covers_context v ->
    Forall aligned (calls w) ->
    Forall aligned
           (calls (snd (forcing_loop generate tokenizer crit ecrit repl rt
                                     eos pad minb cut used fuel v w)))
    /\ forall v',
        fst (forcing_loop generate tokenizer crit ecrit repl rt
                          eos pad minb cut used fuel v w) = Ok v' ->
        mask_covers_context v'.
Proof.
  induction fuel as [|fuel IH]; intros v w Hv Hw; simpl;
    destruct (used <? minb).
  - split; [assumption | discriminate].
  - split; [assumption|]. intros v' R; inversion R; subst; assumption.
  - unfold bind.
    destruct (forcing_body_aligned tokenizer crit ecrit repl rt eos pad cut
                                   used w Hv Hw) as [Hc Hi].
    destruct (forcing_body _ _ _ _ _ _ _ _ _ _ _ _) as [[v1| e |] w1];
      cbn [fst snd] in *; try (split; [assumption | discriminate]).
    apply IH; [apply Hi; reflexivity | assumption].
  - split; [assumption|]. intros v' R; inversion R; subst; assumption.
Qed.

(** X7.  With a generator that only appends columns and an input mask as
    wide as the prompt, every call that [budget_forcing_gen] makes has an
    attention mask as wide as its input, whatever the outcome of the
    run. *)
Theorem budget_forcing_gen_masks_aligned
        (fuel : nat) (tokenizer : Tokenizer)
        (input_ids input_attention_masks : Tensor2)
        (eos_token_id pad_token_id min_budget max_budget : Z)
        (replace_tokens : Dict) (w : World G) :
  ncols input_attention_masks = ncols input_ids ->
  Forall aligned (calls w) ->
  Forall aligned
         (calls (snd (budget_forcing_gen
                        generate fuel tokenizer input_ids
                        input_attention_masks eos_token_id pad_token_id
                        min_budget max_budget replace_tokens w))).
Proof.
  intros Hm Hw. unfold budget_forcing_gen, py_assert.
  destruct (128 <? max_budget - min_budget); [|assumption].
  rewrite bind_ret. unfold bind at 1, lift at 1.
  destruct (MatchingTokensStoppingCriteria.__init__ tokenizer)
    as [crit| |]; [|assumption..].
  unfold bind at 1, lift at 1.
  destruct (dict_get replace_tokens NL) as [nl| |]; [|assumption..].
  unfold bind at 1, lift at 1.
  destruct (dict_get replace_tokens "Wait") as [wt| |]; [|assumption..].
  unfold bind at 1, lift at 1.
  destruct (dict_get replace_tokens ",") as [cm| |]; [|assumption..].
  unfold bind at 1, model_generate at 1.
  match goal with
  | |- context [generate (gen_state w) ?c] =>
      pose proof (Happ (gen_state w) c) as H1;
      assert (Hc1 : aligned c) by exact Hm;
      destruct (generate (gen_state w) c) as [first g1]
  end.
  cbn [fst gc_input_ids] in H1.
  unfold bind at 1.
  match goal with
  | |- context [forcing_loop ?a ?b ?c ?d ?e ?f ?g ?h ?i ?j ?k fuel ?v ?w'] =>
      destruct (@forcing_loop_aligned b c d e f g h i j k fuel v w')
        as [Hc Hi];
      [ split; [exact Hm | exact H1]
      | constructor; [exact Hc1 | exact Hw]
      | destruct (forcing_loop a b c d e f g h i j k fuel v w')
          as [[v1| e1 |] w1] ]
  end; cbn [fst snd] in *; try assumption.
  destruct (Hi v1 eq_refl) as [Hm1 Hp1].
  unfold bind at 1, lift at 1.
  destruct (cat_cols _ _) as [m2| |] eqn:E2; cbn [snd]; try assumption.
  apply cat_cols_ncols in E2. cbn [ones_like slice_from_col ncols] in E2.
  unfold model_generate.
  destruct (generate _ _) as [final g2]. cbn [snd calls].
  constructor; [|assumption]. unfold aligned.
  cbn [gc_attention_mask gc_input_ids]. lia.
Qed.

End Alignment.

Lemma gen_k_appends (k : nat) : appends_columns (gen_k k).
Proof. intros g c. unfold gen_k. cbn. lia. Qed.

Lemma gen_k_respects (k : nat) : respects_max_new_tokens (gen_k k).
Proof. intros g c. unfold gen_k. cbn. lia. Qed.

Lemma budget_forcing_gen_masks_aligned_witness :
  Forall aligned
         (calls (snd (budget_forcing_gen
                        (gen_k 1) 3 qwen_like prompt4 mask4 151645 151643
                        256 400 qwen_replace_tokens w0))).
Proof.
  apply (@budget_forcing_gen_masks_aligned
           unit (gen_k 1) (gen_k_appends 1) 3 qwen_like prompt4 mask4
           151645 151643 256 400 qwen_replace_tokens w0).
  - reflexivity.
  - constructor.
Defined.

Lemma budget_forcing_gen_returns_witness :
  2 <= Z.of_nat 10 - Z.of_nat (ncols prompt4) <= 200
  /\ length (calls (snd (budget_forcing_gen
                           (gen_k 3) 0 qwen_like prompt4 mask4 151645 151643
                           2 200 qwen_replace_tokens w0)))
     = (2 + length (calls w0))%nat.
Proof.
  apply (@budget_forcing_gen_returns
           unit (gen_k 3) 0 qwen_like prompt4 mask4 151645 151643 2 200
           qwen_replace_tokens w0
           (snd (budget_forcing_gen
                   (gen_k 3) 0 qwen_like prompt4 mask4 151645 151643
                   2 200 qwen_replace_tokens w0))
           {| ncols := 10; rows := [[1; 2; 3; 4; 7; 7; 7; 7; 7; 7]] |}).
  - apply gen_k_respects.
  - lia.
  - reflexivity.
Defined.

Lemma dict_get_cases (d : Dict) (k : string) :
  (exists v, dict_get d k = Ok v /\ In (k, v) d)
  \/ (dict_get d k = Err KeyError /\ forall v, ~ In (k, v) d).
Proof.
  induction d as [|[k' v'] d IH]; simpl.
  - right. split; [reflexivity | tauto].
  - destruct (String.eqb k' k) eqn:E.
    + apply String.eqb_eq in E. subst. left. exists v'. auto.
    + apply String.eqb_neq in E. destruct IH as [(v & H1 & H2) | [H1 H2]].
      * left. exists v. auto.
      * right. split; [assumption|]. intros v [H | H].
        -- inversion H. congruence.
        -- exact (H2 v H).
Qed.

Lemma zip_with_ones_tail (n : nat) (a b : list (list Z)) :
  zip_with (@app Z) a (map (map (fun _ => 1)) (map (skipn n) b))
  = zip_with (fun m r => m ++ repeat 1 (length r - n)) a b.
Proof.
  unfold zip_with. revert b.
  induction a as [|m a IH]; intros [|r b]; simpl; try reflexivity.
  rewrite IH, map_const_repeat, length_skipn. reflexivity.
Qed.

Section PreGeneration.

Variable G : Type.
Variable generate : G -> GenCall -> Tensor2 * G.

Lemma model_generate_eq (c : GenCall) (w : World G) :
  model_generate generate c w
  = (Ok (fst (generate (gen_state w) c)),
     {| gen_state := snd (generate (gen_state w) c);
        calls := c :: calls w |}).
Proof.
  unfold model_generate. now destruct (generate (gen_state w) c).
Qed.

(** X9.  With a valid margin, a vocabulary without candidates (a
    [RuntimeError]) or a replacement dictionary without one of its three
    keys (a [KeyError]) stops [budget_forcing_gen] before the generator is
    touched. *)
Theorem budget_forcing_gen_fails_before_generation
        (fuel : nat) (tokenizer : Tokenizer)
        (input_ids input_attention_masks : Tensor2)
        (eos_token_id pad_token_id min_budget max_budget : Z)
        (replace_tokens : Dict) (w : World G) :
  128 < max_budget - min_budget ->
  let run := budget_forcing_gen generate fuel tokenizer input_ids
                                input_attention_masks eos_token_id
                                pad_token_id min_budget max_budget
                                replace_tokens w in
  (left_matching_token_ids (get_vocab tokenizer) = []
   \/ right_matching_token_ids (get_vocab tokenizer) = [] ->
   run = (Err RuntimeError, w))
  /\ (forall crit,
         MatchingTokensStoppingCriteria.__init__ tokenizer = Ok crit ->
         (forall v, ~ In (NL, v) replace_tokens)
         \/ (forall v, ~ In ("Wait"%string, v) replace_tokens)
         \/ (forall v, ~ In (","%string, v) replace_tokens) ->
         run = (Err KeyError, w)).
Proof.
  intros Hm. apply Z.ltb_lt in Hm. cbv zeta.
  unfold budget_forcing_gen, py_assert. rewrite Hm, bind_ret.
  split.
  - intros Hd. unfold bind at 1, lift at 1.
    now rewrite (stopping_criteria_init_degenerate _ Hd).
  - intros crit Hc Hk. unfold bind at 1, lift at 1. rewrite Hc.
    unfold bind at 1, lift at 1.
    destruct (dict_get_cases replace_tokens NL) as [(nl & -> & Hnl) | [-> _]];
      [|reflexivity].
    unfold bind at 1, lift at 1.
    destruct (dict_get_cases replace_tokens "Wait")
      as [(wt & -> & Hwt) | [-> _]]; [|reflexivity].
    unfold bind at 1, lift at 1.
    destruct (dict_get_cases replace_tokens ",")
      as [(cm & -> & Hcm) | [-> _]]; [|reflexivity].
    exfalso. destruct Hk as [H | [H | H]]; eapply H; eassumption.
Qed.

(** X8.  When the first round already covers the minimum budget the run
    returns after exactly one more call: on the unmodified output of the
    first round, without stopping criteria and with the rest of the
    maximum budget as [max_new_tokens].  The attention mask of that call
    is the input mask with, in every row, a one for each column the
    first round added. *)
Theorem budget_forcing_gen_two_rounds
        (fuel : nat) (tokenizer : Tokenizer)
        (input_ids input_attention_masks : Tensor2)
        (eos_token_id pad_token_id min_budget max_budget : Z)
        (replace_tokens : Dict) (w : World G)
        (crit : MatchingTokensStoppingCriteria.t) (nl wt cm : Z) :
  128 < max_budget - min_budget ->
  MatchingTokensStoppingCriteria.__init__ tokenizer = Ok crit ->
  dict_get replace_tokens NL = Ok nl ->
  dict_get replace_tokens "Wait" = Ok wt ->
  dict_get replace_tokens "," = Ok cm ->
  let c1 := {| gc_input_ids := input_ids;
               gc_attention_mask := input_attention_masks;
               gc_do_sample := true;
               gc_max_new_tokens := max_budget - 128;
               gc_eos_token_id := eos_token_id;
               gc_pad_token_id := pad_token_id;
               gc_num_return_sequences := 1;
               gc_stopping_criteria :=
                 [MatchingTokens crit;
                  AnyEos (AnyEosStoppingCriteria.__init__ eos_token_id)] |} in
  let first := fst (generate (gen_state w) c1) in
  let used := Z.of_nat (ncols first) - Z.of_nat (ncols input_ids) in
  min_budget <= used ->
  nrows input_attention_masks = nrows first ->
  exists c2,
    budget_forcing_gen generate fuel tokenizer input_ids
                       input_attention_masks eos_token_id pad_token_id
                       min_budget max_budget replace_tokens w
    = (Ok (fst (generate (snd (generate (gen_state w) c1)) c2)),
       {| gen_state := snd (generate (snd (generate (gen_state w) c1)) c2);
          calls := c2 :: c1 :: calls w |})
    /\ gc_input_ids c2 = first
    /\ gc_stopping_criteria c2 = []
    /\ gc_max_new_tokens c2 = max_budget - used
    /\ ncols (gc_attention_mask c2)
       = (ncols input_attention_masks + (ncols first - ncols input_ids))%nat
    /\ rows (gc_attention_mask c2)
       = zip_with (fun m r => m ++ repeat 1 (length r - ncols input_ids))
                  (rows input_attention_masks) (rows first)
    /\ nrows (gc_attention_mask c2) = nrows input_attention_masks.
Proof.
  intros Hm Hc Hnl Hwt Hcm. cbv zeta. intros Hused Hrows.
  apply Z.ltb_lt in Hm.
  unfold budget_forcing_gen, py_assert. rewrite Hm, bind_ret.
  unfold bind at 1, lift at 1. rewrite Hc.
  unfold bind at 1, lift at 1. rewrite Hnl.
  unfold bind at 1, lift at 1. rewrite Hwt.
  unfold bind at 1, lift at 1. rewrite Hcm.
  unfold bind at 1. rewrite model_generate_eq. cbn [gen_state calls].
  unfold bind at 1. rewrite forcing_loop_skipped by assumption.
  cbn [lv_attention_mask lv_prompt_length lv_output_seqs].
  unfold bind at 1, lift at 1, cat_cols.
  match goal with
  | |- context [(nrows input_attention_masks =? ?n)%nat] =>
      replace (nrows input_attention_masks =? n)%nat with true
  end.
  2:{ symmetry. apply Nat.eqb_eq. rewrite Hrows.
      unfold nrows, ones_like, slice_from_col. cbn [rows].
      now rewrite !length_map. }
  rewrite model_generate_eq. cbn [gen_state calls].
  eexists. split; [reflexivity|].
  cbn [gc_input_ids gc_stopping_criteria gc_max_new_tokens gc_attention_mask
       ncols rows ones_like slice_from_col].
  repeat (split; [reflexivity|]).
  rewrite zip_with_ones_tail. split; [reflexivity|].
  unfold nrows in *. cbn [rows]. unfold zip_with.
  rewrite length_map, length_combine, Hrows. apply Nat.min_id.
Qed.

End PreGeneration.

Lemma budget_forcing_gen_fails_before_generation_witness :
  budget_forcing_gen (gen_k 3) 0 no_open_fragment prompt4 mask4
                     151645 151643 2 200 qwen_replace_tokens w0
  = (Err RuntimeError, w0)
  /\ budget_forcing_gen (gen_k 3) 0 qwen_like prompt4 mask4
                        151645 151643 2 200 [(NL, 198); (","%string, 11)] w0
     = (Err KeyError, w0).
Proof.
  split.
  - apply (@budget_forcing_gen_fails_before_generation
             unit (gen_k 3) 0 no_open_fragment prompt4 mask4
             151645 151643 2 200 qwen_replace_tokens w0); [lia|].
    left. reflexivity.
  - apply (proj2 (@budget_forcing_gen_fails_before_generation
                    unit (gen_k 3) 0 qwen_like prompt4 mask4
                    151645 151643 2 200 [(NL, 198); (","%string, 11)] w0
                    ltac:(lia)) qwen_criteria); [reflexivity|].
    right. left. intros v [H | [H | []]]; discriminate.
Defined.

Lemma budget_forcing_gen_two_rounds_witness :
  exists c2,
    fst (budget_forcing_gen (gen_k 3) 0 qwen_like prompt4 mask4 151645 151643
                            2 200 qwen_replace_tokens w0)
    = Ok (fst (gen_k 3 tt c2))
    /\ gc_input_ids c2 = {| ncols := 7; rows := [[1; 2; 3; 4; 7; 7; 7]] |}
    /\ gc_stopping_criteria c2 = []
    /\ gc_max_new_tokens c2 = 200 - (7 - 4)
    /\ ncols (gc_attention_mask c2) = 7%nat
    /\ rows (gc_attention_mask c2) = [[1; 1; 1; 1; 1; 1; 1]].
Proof.
  destruct (@budget_forcing_gen_two_rounds
              unit (gen_k 3) 0 qwen_like prompt4 mask4 151645 151643 2 200
              qwen_replace_tokens w0 qwen_criteria 198 14190 11)
    as (c2 & E & H1 & H2 & H3 & H4 & H5 & _).
  - lia.
  - reflexivity.
  - reflexivity.
  - reflexivity.
  - reflexivity.
  - simpl. lia.
  - reflexivity.
  - exists c2. rewrite E. repeat split; assumption.
Defined.

(* ================================================================= *)
(** ** The splice, the constructors and the plain path *)

Lemma zip_with_app_repeat (l : list (list Z)) (x : list Z) :
  zip_with (@app Z) l (repeat x (length l)) = map (fun r => r ++ x) l.
Proof.
  unfold zip_with. induction l as [|r l IH]; simpl; [reflexivity|].
  now rewrite IH.
Qed.

Lemma Forall2_map_self {A B} (P : A -> B -> Prop) (f : A -> B) (l : list A) :
  (forall x, In x l -> P x (f x)) -> Forall2 P l (map f l).
Proof.
  induction l as [|x l IH]; simpl; intros H; constructor; auto.
Qed.

(** X10.  The splice of a round keeps the shape of the batch and every
    token in front of the last three; a row is changed only when its tail
    is a pattern, and then its tail is the replacement run. *)
Theorem splice_tails_changes_only_matching_tails
        (tokenizer : Tokenizer) (crit : MatchingTokensStoppingCriteria.t)
        (repl : list Z) (rt : Dict) (nl : Z) (t : Tensor2) :
  wf t -> (3 <= ncols t)%nat -> (1 <= nrows t)%nat ->
  wf (MatchingTokensStoppingCriteria.think_token_combo crit) ->
  ncols (MatchingTokensStoppingCriteria.think_token_combo crit) = 3%nat ->
  length repl = 3%nat ->
  dict_get rt NL = Ok nl ->
  exists t',
    splice_tails tokenizer crit repl rt t = Ok t'
    /\ ncols t' = ncols t /\ wf t'
    /\ Forall2
         (fun r r' =>
            droplast 3 r' = droplast 3 r
            /\ if py_in (lastn 3 r)
                        (rows (MatchingTokensStoppingCriteria.think_token_combo
                                 crit))
               then lastn 3 r' = repl else r' = r)
         (rows t) (rows t').
Proof.
  intros Hwf HL HB Hpwf Hp Hr Hnl.
  eexists. split; [eapply splice_tails_ok; eassumption|].
  split; [reflexivity|]. split; [now apply spliced_wf|].
  unfold spliced. cbn [rows]. apply Forall2_map_self. intros r Hin.
  destruct (py_in _ _); [|auto]. split.
  - now apply droplast_app_exact.
  - now apply lastn_app_exact.
Qed.

Lemma splice_tails_changes_only_matching_tails_witness :
  exists t',
    splice_tails qwen_like qwen_criteria [198; 14190; 11] qwen_replace_tokens
                 {| ncols := 4; rows := [[1; 522; 26865; 29]; [1; 2; 3; 4]] |}
    = Ok t'
    /\ ncols t' = 4%nat /\ wf t'
    /\ Forall2
         (fun r r' =>
            droplast 3 r' = droplast 3 r
            /\ if py_in (lastn 3 r) (rows qwen_patterns)
               then lastn 3 r' = [198; 14190; 11] else r' = r)
         [[1; 522; 26865; 29]; [1; 2; 3; 4]] (rows t').
Proof.
  apply (@splice_tails_changes_only_matching_tails
           qwen_like qwen_criteria [198; 14190; 11] qwen_replace_tokens 198
           {| ncols := 4; rows := [[1; 522; 26865; 29]; [1; 2; 3; 4]] |}).
  - repeat constructor.
  - simpl; lia.
  - unfold nrows; simpl; lia.
  - repeat constructor.
  - reflexivity.
  - reflexivity.
  - reflexivity.
Defined.

(** X11.  [HFRollout.__init__], and [LLM.__init__] once its argument
    checks have passed, succeed exactly when the tokenizer encodes the
    continuation word as one id and the newline and the comma as at least
    one id each; with a single-id word and an empty newline or comma
    encoding [HFRollout.__init__] raises [IndexError]. *)
Theorem rollout_constructors_succeed_iff (tokenizer : Tokenizer) :
  let encodable :=
    length (encode tokenizer "Wait") = 1%nat
    /\ encode tokenizer NL <> [] /\ encode tokenizer "," <> [] in
  (forall config,
      (exists r, HFRollout.__init__ tokenizer config = Ok r) <-> encodable)
  /\ (forall kwargs,
         existsb (fun k => existsb (String.eqb k) kwargs)
                 LLM.removed_vision_keys = false ->
         (exists llm, LLM.__init__ tokenizer kwargs true = Ok llm)
         <-> encodable)
  /\ (length (encode tokenizer "Wait") = 1%nat ->
      encode tokenizer NL = [] \/ encode tokenizer "," = [] ->
      forall config, HFRollout.__init__ tokenizer config = Err IndexError).
Proof.
  cbv zeta. split; [|split].
  - intros config. unfold HFRollout.__init__. split.
    + intros (r & H).
      destruct (length (encode tokenizer "Wait") =? 1)%nat eqn:E;
        [|discriminate]. apply Nat.eqb_eq in E. cbn [negb] in H.
      destruct (py_first (encode tokenizer "Wait")); try discriminate.
      cbn [rbind] in H.
      destruct (encode tokenizer NL); [discriminate|]. cbn in H.
      destruct (encode tokenizer ","); [discriminate|].
      repeat split; auto; discriminate.
    + intros (E & Hn & Hc).
      destruct (py_first_singleton _ E) as (w & Hw & Hf).
      apply Nat.eqb_eq in E. rewrite E, Hf. cbn [negb rbind].
      destruct (encode tokenizer NL); [congruence|].
      destruct (encode tokenizer ","); [congruence|].
      cbn. eexists; reflexivity.
  - intros kwargs Hk. unfold LLM.__init__. rewrite Hk. cbn [negb]. split.
    + intros (r & H).
      destruct (length (encode tokenizer "Wait") =? 1)%nat eqn:E;
        [|discriminate]. apply Nat.eqb_eq in E. cbn [negb] in H.
      destruct (py_first (encode tokenizer "Wait")); try discriminate.
      cbn [rbind] in H.
      destruct (encode tokenizer NL); [discriminate|]. cbn in H.
      destruct (encode tokenizer ","); [discriminate|].
      repeat split; auto; discriminate.
    + intros (E & Hn & Hc).
      destruct (py_first_singleton _ E) as (w & Hw & Hf).
      apply Nat.eqb_eq in E. rewrite E, Hf. cbn [negb rbind].
      destruct (encode tokenizer NL); [congruence|].
      destruct (encode tokenizer ","); [congruence|].
      cbn. eexists; reflexivity.
  - intros E Hd config. unfold HFRollout.__init__.
    destruct (py_first_singleton _ E) as (w & Hw & Hf).
    apply Nat.eqb_eq in E. rewrite E, Hf. cbn [negb rbind].
    destruct (encode tokenizer NL) as [|n ns]; [reflexivity|].
    destruct Hd as [Hd | Hd]; [discriminate|]. rewrite Hd. reflexivity.
Qed.

Lemma rollout_constructors_succeed_iff_witness :
  (exists r, HFRollout.__init__ qwen_like forcing_config = Ok r)
  /\ (exists llm, LLM.__init__ qwen_like [] true = Ok llm)
  /\ HFRollout.__init__ no_newline forcing_config = Err IndexError.
Proof.
  split; [|split].
  - apply (proj1 (rollout_constructors_succeed_iff qwen_like) forcing_config).
    repeat split; discriminate.
  - apply (proj1 (proj2 (rollout_constructors_succeed_iff qwen_like)) []).
    + reflexivity.
    + repeat split; discriminate.
  - apply (proj2 (proj2 (rollout_constructors_succeed_iff no_newline))).
    + reflexivity.
    + left. reflexivity.
Defined.

Section PlainPath.

Variable G : Type.
Variable generate : G -> GenCall -> Tensor2 * G.

(** X12.  On a validation batch, or without budget forcing,
    [_generate_minibatch] calls the generator exactly once, without
    stopping criteria; a generator output wider than the prompt plus the
    configured response length is an assertion error; and a returned
    batch is exactly that wide, each row being the generated row followed
    by pad tokens, split into prompt and response at the prompt length. *)
Theorem generate_minibatch_plain_path
        (fuel : nat) (self : HFRollout.t) (prompts : DataProto)
        (w w' : World G) (res : result RolloutBatch) :
  get_or (mi_validate (meta_info prompts)) false = true
  \/ cfg_do_budget_forcing (HFRollout.config self) = false ->
  let config := HFRollout.config self in
  let do_sample :=
    get_or (mi_do_sample (meta_info prompts)) (cfg_do_sample config) in
  let c := {| gc_input_ids := batch_input_ids prompts;
              gc_attention_mask := batch_attention_mask prompts;
              gc_do_sample := do_sample;
              gc_max_new_tokens :=
                get_or (mi_response_length (meta_info prompts))
                       (cfg_response_length config);
              gc_eos_token_id := mi_eos_token_id (meta_info prompts);
              gc_pad_token_id := mi_pad_token_id (meta_info prompts);
              gc_num_return_sequences :=
                if do_sample then cfg_n config else 1;
              gc_stopping_criteria := [] |} in
  let out := fst (generate (gen_state w) c) in
  let prompt_length := ncols (batch_input_ids prompts) in
  let sequence_length :=
    Z.of_nat prompt_length + cfg_response_length config in
  _generate_minibatch generate fuel self prompts w = (res, w') ->
  calls w' = c :: calls w
  /\ (sequence_length < Z.of_nat (ncols out) -> res = Err AssertionError)
  /\ (forall b,
         res = Ok b ->
         Z.of_nat (ncols (out_input_ids b)) = sequence_length
         /\ rows (out_input_ids b)
            = map (fun r =>
                     r ++ repeat (mi_pad_token_id (meta_info prompts))
                                 (Z.to_nat (sequence_length
                                            - Z.of_nat (ncols out))))
                  (rows out)
         /\ out_prompts b = slice_to_col prompt_length (out_input_ids b)
         /\ out_responses b = slice_from_col prompt_length (out_input_ids b)).
Proof.
  intros Hplain. cbv zeta. unfold _generate_minibatch.
  replace (negb (get_or (mi_validate (meta_info prompts)) false)
           && cfg_do_budget_forcing (HFRollout.config self)) with false.
  2:{ destruct Hplain as [-> | ->]; [reflexivity|].
      now rewrite andb_false_r. }
  unfold bind at 1. unfold bind at 1. rewrite model_generate_eq.
  set (c := {| gc_input_ids := batch_input_ids prompts |}).
  set (out := fst (generate (gen_state w) c)).
  set (w1 := {| gen_state := snd (generate (gen_state w) c);
                calls := c :: calls w |}).
  unfold ret at 1. unfold bind at 1. unfold ret at 1.
  unfold bind at 1.
  set (delta := Z.of_nat (ncols (batch_input_ids prompts))
                + cfg_response_length (HFRollout.config self)
                - Z.of_nat (ncols out)).
  destruct (0 <? delta) eqn:Hd.
  - apply Z.ltb_lt in Hd. unfold lift at 1, cat_cols.
    match goal with
    | |- context [(nrows out =? nrows ?d)%nat] =>
        destruct (nrows out =? nrows d)%nat eqn:Hn
    end.
    + unfold bind at 1, py_assert. cbn [ncols].
      match goal with
      | |- context [if ?cnd then ret tt else _] =>
          replace cnd with true by (symmetry; apply Z.eqb_eq; lia)
      end.
      unfold ret. intros R0; inversion R0; subst res w'; clear R0.
      split; [reflexivity|].
      split; [intros; lia|].
      intros b R. inversion R; subst; clear R.
      cbn [out_input_ids out_prompts out_responses ncols rows].
      repeat split; try lia.
      apply Nat.eqb_eq in Hn. unfold nrows in *. cbn [rows] in Hn.
      rewrite repeat_length in Hn. rewrite <- Hn.
      apply zip_with_app_repeat.
    + cbn. intros R0; inversion R0; subst res w'; clear R0.
      split; [reflexivity|]. split; [intros; lia | discriminate].
  - apply Z.ltb_ge in Hd. unfold ret at 1.
    unfold bind at 1, py_assert.
    destruct (Z.of_nat (ncols out) =? _) eqn:Ha.
    + apply Z.eqb_eq in Ha. unfold ret.
      intros R0; inversion R0; subst res w'; clear R0.
      split; [reflexivity|]. split; [intros; lia|].
      intros b R. inversion R; subst; clear R.
      cbn [out_input_ids out_prompts out_responses].
      repeat split; try lia.
      replace (Z.to_nat _) with 0%nat by lia. cbn [repeat].
      rewrite <- (map_id (rows out)) at 1. apply map_ext.
      intros r. now rewrite app_nil_r.
    + cbn. intros R0; inversion R0; subst res w'; clear R0.
      split; [reflexivity|]. split; [reflexivity | discriminate].
Qed.

End PlainPath.

Lemma generate_minibatch_plain_path_witness :
  (let b := {| out_prompts := {| ncols := 4; rows := [[1; 2; 3; 4]] |};
               out_responses :=
                 {| ncols := 8;
                    rows := [[7; 7; 7; 151643; 151643; 151643; 151643;
                              151643]] |};
               out_input_ids :=
                 {| ncols := 12;
                    rows := [[1; 2; 3; 4; 7; 7; 7; 151643; 151643; 151643;
                              151643; 151643]] |} |} in
   Z.of_nat (ncols (out_input_ids b)) = Z.of_nat 4 + 8
   /\ rows (out_input_ids b)
      = map (fun r => r ++ repeat 151643 (Z.to_nat (Z.of_nat 4 + 8 - 7)))
            [[1; 2; 3; 4; 7; 7; 7]]
   /\ out_prompts b = slice_to_col 4 (out_input_ids b)
   /\ out_responses b = slice_from_col 4 (out_input_ids b))
  /\ fst (_generate_minibatch (gen_k 20) 0 forcing_rollout
                              (validation_prompts (Some 20)) w0)
     = Err AssertionError.
Proof.
  split.
  - cbv zeta.
    refine (proj2 (proj2 (@generate_minibatch_plain_path
                            unit (gen_k 3) 0 forcing_rollout
                            (validation_prompts None) w0 _ _
                            (or_introl eq_refl) eq_refl)) _ eq_refl).
  - refine (proj1 (proj2 (@generate_minibatch_plain_path
                            unit (gen_k 20) 0 forcing_rollout
                            (validation_prompts (Some 20)) w0 _ _
                            (or_introl eq_refl)
                            (surjective_pairing _))) _).
    simpl. lia.
Defined.

(* ================================================================= *)
(** ** The vLLM engine loop *)

Lemma force_output_off (self : LLM.t) (output : RequestOutput) :
  LLM.do_budget_forcing self = false ->
  LLM.force_output self output = Ok output.
Proof. intros H. unfold LLM.force_output. now rewrite H. Qed.

Lemma force_output_on (self : LLM.t) (min_budget : Z) (output : RequestOutput) :
  LLM.min_budget self = Some min_budget ->
  LLM.force_output self output
  = if LLM.do_budget_forcing self
       && (Z.of_nat (length (token_ids output)) <? min_budget)
       && (3 <=? length (token_ids output))%nat
       && py_in (lastn 3 (token_ids output)) (LLM.think_tokens self)
    then Err TypeError
    else Ok output.
Proof.
  intros Hmb. unfold LLM.force_output. rewrite Hmb.
  destruct (LLM.do_budget_forcing self); cbn [andb]; [|reflexivity].
  destruct (_ && _); cbn [andb]; [|reflexivity].
  destruct (py_in _ _); reflexivity.
Qed.

Lemma force_output_cases (self : LLM.t) (output : RequestOutput) :
  (LLM.force_output self output = Ok output /\ passes self output = true)
  \/ (LLM.force_output self output = Err TypeError
      /\ passes self output = false).
Proof.
  unfold passes, LLM.force_output.
  destruct (LLM.do_budget_forcing self); [|auto].
  destruct (LLM.min_budget self) as [mb|]; [|auto].
  destruct (_ && _); [|auto].
  destruct (py_in _ _); auto.
Qed.

(** X13.  The rewrite of one step output in [_run_engine] does nothing
    when budget forcing is off.  With a minimum budget it raises
    [TypeError], the slice assignment being on a tuple, exactly when
    forcing is on, the completion has at least 3 and fewer than
    [min_budget] tokens and its tail is a terminator; otherwise it returns
    the output as it is.  With forcing on and no minimum budget it raises
    [TypeError] too.  It never returns a changed output. *)
Theorem force_output_spec (self : LLM.t) (output : RequestOutput) :
  (LLM.do_budget_forcing self = false ->
   LLM.force_output self output = Ok output)
  /\ (forall min_budget,
         LLM.min_budget self = Some min_budget ->
         let ids := token_ids output in
         let forced :=
           LLM.do_budget_forcing self
           && (Z.of_nat (length ids) <? min_budget)
           && (3 <=? length ids)%nat
           && py_in (lastn 3 ids) (LLM.think_tokens self) in
         LLM.force_output self output
         = if forced then Err TypeError else Ok output)
  /\ (LLM.do_budget_forcing self = true ->
      LLM.min_budget self = None ->
      LLM.force_output self output = Err TypeError)
  /\ (forall output',
         LLM.force_output self output = Ok output' -> output' = output).
Proof.
  split; [|split; [|split]].
  - apply force_output_off.
  - intros mb Hmb. cbv zeta. now apply force_output_on.
  - intros Hb Hmb. unfold LLM.force_output. now rewrite Hb, Hmb.
  - intros output' H.
    destruct (force_output_cases self output) as [[E _] | [E _]];
      rewrite E in H; [now inversion H | discriminate].
Qed.

Lemma force_output_spec_witness :
  LLM.force_output (qwen_llm false (Some 10))
                   (mkRequestOutput 0 [64; 522; 26865; 29] false)
  = Ok (mkRequestOutput 0 [64; 522; 26865; 29] false)
  /\ LLM.force_output (qwen_llm true (Some 10))
                      (mkRequestOutput 3 [64; 522; 26865; 29] true)
     = Err TypeError
  /\ LLM.force_output (qwen_llm true (Some 3))
                      (mkRequestOutput 3 [64; 522; 26865; 29] true)
     = Ok (mkRequestOutput 3 [64; 522; 26865; 29] true)
  /\ LLM.force_output (qwen_llm true None)
                      (mkRequestOutput 3 [5; 6] true)
     = Err TypeError.
Proof.
  split; [|split; [|split]].
  - apply (proj1 (force_output_spec
                    (qwen_llm false (Some 10))
                    (mkRequestOutput 0 [64; 522; 26865; 29] false))).
    reflexivity.
  - apply (proj1 (proj2 (force_output_spec
                           (qwen_llm true (Some 10))
                           (mkRequestOutput 3 [64; 522; 26865; 29] true)))
                 10).
    reflexivity.
  - apply (proj1 (proj2 (force_output_spec
                           (qwen_llm true (Some 3))
                           (mkRequestOutput 3 [64; 522; 26865; 29] true)))
                 3).
    reflexivity.
  - apply (proj1 (proj2 (proj2 (force_output_spec
                                  (qwen_llm true None)
                                  (mkRequestOutput 3 [5; 6] true))))).
    + reflexivity.
    + reflexivity.
Defined.

Lemma for_step_outputs_passes (self : LLM.t)
      (step_outputs : list RequestOutput) :
  forall outputs,
    LLM.for_step_outputs self step_outputs outputs
    = if forallb (passes self) step_outputs
      then Ok (outputs ++ filter finished step_outputs)
      else Err TypeError.
Proof.
  induction step_outputs as [|o rest IH]; intros outputs; simpl.
  - now rewrite app_nil_r.
  - destruct (force_output_cases self o) as [[-> ->] | [-> ->]];
      cbn [rbind andb]; [|reflexivity].
    rewrite IH. destruct (forallb (passes self) rest); [|reflexivity].
    destruct (finished o); [|reflexivity].
    now rewrite <- app_assoc.
Qed.

Lemma passes_off (self : LLM.t) (l : list RequestOutput) :
  LLM.do_budget_forcing self = false -> forallb (passes self) l = true.
Proof.
  intros Hoff. apply forallb_forall. intros o _. unfold passes.
  now rewrite (force_output_off self o Hoff).
Qed.

Lemma int64_tensor_cases (ids : list Z) :
  (int64_tensor ids = Ok ids /\ forall z, In z ids -> in_int64 z)
  \/ (int64_tensor ids = Err RuntimeError
      /\ exists z, In z ids /\ ~ in_int64 z).
Proof.
  unfold int64_tensor.
  destruct (forallb _ ids) eqn:E.
  - left. split; [reflexivity|]. intros z Hz.
    rewrite forallb_forall in E. specialize (E z Hz).
    apply andb_true_iff in E. unfold in_int64. lia.
  - right. split; [reflexivity|].
    apply not_true_iff_false in E.
    destruct (Exists_dec (fun z => ~ in_int64 z) ids) as [Hex | Hnex].
    + intros z. unfold in_int64.
      destruct (Z_le_dec (- 2 ^ 63) z), (Z_lt_dec z (2 ^ 63));
        [right | left | left | left]; lia.
    + apply Exists_exists in Hex. exact Hex.
    + exfalso. apply E. apply forallb_forall. intros z Hz.
      apply andb_true_iff.
      destruct (Z_le_dec (- 2 ^ 63) z) as [H1 | H1],
               (Z_lt_dec z (2 ^ 63)) as [H2 | H2];
        try (split; lia);
        exfalso; apply Hnex; apply Exists_exists; exists z;
          (split; [assumption | unfold in_int64; lia]).
Qed.

Lemma rmap_int64_tensor_cases (l : list (list Z)) :
  (rmap int64_tensor l = Ok l
   /\ forall ids z, In ids l -> In z ids -> in_int64 z)
  \/ (rmap int64_tensor l = Err RuntimeError
      /\ exists ids z, In ids l /\ In z ids /\ ~ in_int64 z).
Proof.
  induction l as [|ids l IH]; cbn [rmap].
  - left. split; [reflexivity|]. intros ids z [].
  - destruct (int64_tensor_cases ids) as [[-> Hok] | [-> (z & Hz & Hn)]];
      cbn [rbind].
    + destruct IH as [[-> Hall] | [-> (ids' & z & Hi & Hz & Hn)]]; cbn [rbind].
      * left. split; [reflexivity|].
        intros ids' z [<- | Hin] Hz; [now apply Hok | now apply (Hall ids')].
      * right. split; [reflexivity|]. exists ids', z. simpl. auto.
    + right. split; [reflexivity|]. exists ids, z. simpl. auto.
Qed.

Lemma for_step_outputs_finished (self : LLM.t) :
  forall step_outputs outputs outputs',
    LLM.for_step_outputs self step_outputs outputs = Ok outputs' ->
    Forall (fun o => finished o = true) outputs ->
    Forall (fun o => finished o = true) outputs'.
Proof.
  induction step_outputs as [|o rest IH]; intros outputs outputs'; simpl.
  - intros E; inversion E; auto.
  - destruct (LLM.force_output self o) as [o'| |] eqn:Ef; cbn [rbind];
      try discriminate.
    intros E Hall. apply (IH _ _ E).
    destruct (finished o') eqn:Hf; [|assumption].
    apply Forall_app. split; [assumption|]. constructor; auto.
Qed.

Lemma insert_by_id_perm (o : RequestOutput) (l : list RequestOutput) :
  Permutation (insert_by_id o l) (o :: l).
Proof.
  induction l as [|o' l IH]; simpl; [reflexivity|].
  destruct (request_id o <=? request_id o'); [reflexivity|].
  rewrite IH. apply perm_swap.
Qed.

Lemma sorted_by_id_perm (l : list RequestOutput) :
  Permutation (sorted_by_id l) l.
Proof.
  unfold sorted_by_id. induction l as [|o l IH]; simpl; [reflexivity|].
  rewrite insert_by_id_perm. now constructor.
Qed.

Lemma insert_by_id_sorted (o : RequestOutput) (l : list RequestOutput) :
  StronglySorted by_request_id l ->
  StronglySorted by_request_id (insert_by_id o l).
Proof.
  induction l as [|o' l IH]; simpl; intros Hs.
  - repeat constructor.
  - inversion Hs as [|? ? Hs' Hall]; subst.
    destruct (request_id o <=? request_id o') eqn:E.
    + apply Z.leb_le in E. constructor; [assumption|].
      constructor; [exact E|].
      eapply Forall_impl; [|exact Hall]. unfold by_request_id. intros; lia.
    + apply Z.leb_gt in E. constructor; [now apply IH|].
      eapply Permutation_Forall; [symmetry; apply insert_by_id_perm|].
      constructor; [unfold by_request_id; lia | assumption].
Qed.

Lemma sorted_by_id_sorted (l : list RequestOutput) :
  StronglySorted by_request_id (sorted_by_id l).
Proof.
  unfold sorted_by_id. induction l as [|o l IH]; simpl; [constructor|].
  now apply insert_by_id_sorted.
Qed.

Lemma insert_by_id_filter (k : Z) (o : RequestOutput) (l : list RequestOutput) :
  filter (fun x => request_id x =? k) (insert_by_id o l)
  = filter (fun x => request_id x =? k) (o :: l).
Proof.
  induction l as [|o' l IH]; [reflexivity|].
  cbn [insert_by_id]. destruct (request_id o <=? request_id o') eqn:E;
    [reflexivity|].
  apply Z.leb_gt in E. cbn [filter] in *. rewrite IH.
  destruct (request_id o =? k) eqn:E1; [|reflexivity].
  destruct (request_id o' =? k) eqn:E2; [|reflexivity].
  apply Z.eqb_eq in E1, E2. lia.
Qed.

(** X16.  The sort at the end of [_run_engine] returns the same outputs,
    in ascending order of request id, outputs of one id in the order they
    were collected. *)
Theorem sorted_by_id_stable_sort (l : list RequestOutput) :
  Permutation (sorted_by_id l) l
  /\ StronglySorted by_request_id (sorted_by_id l)
  /\ forall k,
      filter (fun x => request_id x =? k) (sorted_by_id l)
      = filter (fun x => request_id x =? k) l.
Proof.
  split; [apply sorted_by_id_perm|]. split; [apply sorted_by_id_sorted|].
  intros k. unfold sorted_by_id. induction l as [|o l IH]; [reflexivity|].
  cbn [fold_right]. rewrite insert_by_id_filter. cbn [filter].
  now rewrite IH.
Qed.

Section EngineFacts.

Variable E : Type.
Variable has_unfinished_requests : E -> bool.
Variable step : E -> list RequestOutput * E.

Lemma engine_loop_finished (self : LLM.t) (fuel : nat) :
  forall e outputs outputs' e',
    LLM.engine_loop has_unfinished_requests step fuel self e outputs
    = (Ok outputs', e') ->
    Forall (fun o => finished o = true) outputs ->
    Forall (fun o => finished o = true) outputs'
    /\ has_unfinished_requests e' = false.
Proof.
  induction fuel as [|fuel IH]; intros e outputs outputs' e'; simpl;
    destruct (has_unfinished_requests e) eqn:Hu.
  - discriminate.
  - intros R; inversion R; subst. auto.
  - destruct (step e) as [step_outputs e1].
    destruct (LLM.for_step_outputs self step_outputs outputs)
      as [outputs1| |] eqn:Ef; try discriminate.
    intros R Hall. eapply IH; [exact R|].
    eapply for_step_outputs_finished; eassumption.
  - intros R; inversion R; subst. auto.
Qed.

(** X14.  When the loop of [_run_engine] ends, every output it returns is
    a finished one, the outputs are in ascending order of request id, and
    the engine has no unfinished request left. *)
Theorem run_engine_outputs_finished_sorted
        (fuel : nat) (self : LLM.t) (e e' : E) (outputs : list RequestOutput) :
  LLM._run_engine_outputs has_unfinished_requests step fuel self e
  = (Ok outputs, e') ->
  Forall (fun o => finished o = true) outputs
  /\ StronglySorted by_request_id outputs
  /\ has_unfinished_requests e' = false.
Proof.
  unfold LLM._run_engine_outputs.
  destruct (LLM.engine_loop _ _ _ _ _ _) as [[outs| |] e1] eqn:El;
    try discriminate.
  intros R; inversion R; subst; clear R.
  eapply engine_loop_finished in El; [|constructor].
  destruct El as [Hf Hu].
  split; [|split].
  - eapply Permutation_Forall; [symmetry; apply sorted_by_id_perm | exact Hf].
  - apply sorted_by_id_sorted.
  - exact Hu.
Qed.

Lemma engine_loop_runs_for (self : LLM.t) :
  forall n fuel e outputs,
    runs_for has_unfinished_requests step n e = true ->
    (n <= fuel)%nat ->
    forallb (passes self) (fst (engine_steps step n e)) = true ->
    LLM.engine_loop has_unfinished_requests step fuel self e outputs
    = (Ok (outputs ++ filter finished (fst (engine_steps step n e))),
       snd (engine_steps step n e)).
Proof.
  induction n as [|n IH]; intros fuel e outputs Hr Hle Hp.
  - cbn [runs_for] in Hr. apply negb_true_iff in Hr.
    destruct fuel; cbn [LLM.engine_loop engine_steps]; rewrite Hr;
      cbn; now rewrite app_nil_r.
  - cbn [runs_for] in Hr. apply andb_true_iff in Hr. destruct Hr as [Hu Hr].
    destruct fuel as [|fuel]; [lia|].
    cbn [LLM.engine_loop engine_steps] in *. rewrite Hu.
    destruct (step e) as [step_outputs e1] eqn:Es. cbn [snd] in Hr.
    destruct (engine_steps step n e1) as [later e2] eqn:En. cbn [fst snd] in *.
    rewrite forallb_app in Hp. apply andb_true_iff in Hp.
    destruct Hp as [Hp1 Hp2].
    rewrite for_step_outputs_passes, Hp1.
    rewrite (IH fuel e1 _ Hr) by (rewrite ?En; cbn [fst]; auto; lia).
    rewrite En. cbn [fst snd].
    now rewrite filter_app, app_assoc.
Qed.

Lemma engine_loop_type_error (self : LLM.t) :
  forall n fuel e outputs,
    runs_for has_unfinished_requests step n e = true ->
    (n <= fuel)%nat ->
    forallb (passes self) (fst (engine_steps step n e)) = false ->
    fst (LLM.engine_loop has_unfinished_requests step fuel self e outputs)
    = Err TypeError.
Proof.
  induction n as [|n IH]; intros fuel e outputs Hr Hle Hp.
  - cbn in Hp. discriminate.
  - cbn [runs_for] in Hr. apply andb_true_iff in Hr. destruct Hr as [Hu Hr].
    destruct fuel as [|fuel]; [lia|].
    cbn [LLM.engine_loop engine_steps] in *. rewrite Hu.
    destruct (step e) as [step_outputs e1] eqn:Es. cbn [snd] in Hr.
    destruct (engine_steps step n e1) as [later e2] eqn:En. cbn [fst] in Hp.
    rewrite forallb_app in Hp.
    rewrite for_step_outputs_passes.
    destruct (forallb (passes self) step_outputs); [|reflexivity].
    cbn [andb] in Hp. apply IH; [assumption | lia |].
    now rewrite En.
Qed.

(** X15.  For an engine that has unfinished requests for exactly [n]
    steps, [n] passes are enough.  When the rewrite lets every step
    output through, as it does without budget forcing, the loop returns
    the finished ones among the step outputs, sorted by request id, and
    leaves the engine as it is after these steps; when the rewrite
    stops at one of them the call raises [TypeError]. *)
Theorem run_engine_outputs_after_n_steps
        (self : LLM.t) (n fuel : nat) (e : E) :
  runs_for has_unfinished_requests step n e = true ->
  (n <= fuel)%nat ->
  let step_outputs := fst (engine_steps step n e) in
  (forallb (passes self) step_outputs = true ->
   LLM._run_engine_outputs has_unfinished_requests step fuel self e
   = (Ok (sorted_by_id (filter finished step_outputs)),
      snd (engine_steps step n e)))
  /\ (LLM.do_budget_forcing self = false ->
      forallb (passes self) step_outputs = true)
  /\ (forallb (passes self) step_outputs = false ->
      fst (LLM._run_engine_outputs has_unfinished_requests step fuel self e)
      = Err TypeError).
Proof.
  intros Hr Hle. cbv zeta. split; [|split].
  - intros Hp. unfold LLM._run_engine_outputs.
    now rewrite (@engine_loop_runs_for self n fuel e [] Hr Hle Hp).
  - apply passes_off.
  - intros Hp. unfold LLM._run_engine_outputs.
    pose proof (@engine_loop_type_error self n fuel e [] Hr Hle Hp) as H.
    destruct (LLM.engine_loop _ _ _ _ _ _) as [[outs| err |] e1];
      cbn [fst] in *; congruence.
Qed.

Lemma post_process_outputs_errors (self : LLM.t)
      (request_outputs : list RequestOutput) (err : PyError) :
  LLM._post_process_outputs self request_outputs = Err err ->
  err = RuntimeError
  \/ (err = TypeError
      /\ tok_pad_token_id (LLM.tokenizer self) = None
      /\ tok_eos_token_id (LLM.tokenizer self) = None).
Proof.
  unfold LLM._post_process_outputs.
  destruct (rmap_int64_tensor_cases (map token_ids request_outputs))
    as [[-> _] | [-> _]]; cbn [rbind].
  - unfold pad_sequence.
    destruct (tok_pad_token_id _); [|destruct (tok_eos_token_id _)];
      [| |intros H; inversion H; auto];
      destruct (map token_ids _); intros H; inversion H; auto.
  - intros H; inversion H; auto.
Qed.

Lemma engine_loop_errors (self : LLM.t) :
  forall fuel e outputs err,
    fst (LLM.engine_loop has_unfinished_requests step fuel self e outputs)
    = Err err ->
    err = TypeError /\ LLM.do_budget_forcing self = true.
Proof.
  induction fuel as [|fuel IH]; intros e outputs err; simpl;
    destruct (has_unfinished_requests e); try discriminate.
  destruct (step e) as [so e1].
  rewrite for_step_outputs_passes.
  destruct (forallb (passes self) so) eqn:Hp; [apply IH|].
  cbn [fst]. intros H; inversion H; subst. split; [reflexivity|].
  destruct (LLM.do_budget_forcing self) eqn:Hb; [reflexivity|].
  rewrite (passes_off self so Hb) in Hp. discriminate.
Qed.

Lemma no_value_error_run_engine (fuel : nat) (self : LLM.t) (e : E) :
  fst (LLM._run_engine has_unfinished_requests step fuel self e)
  <> Err ValueError.
Proof.
  unfold LLM._run_engine, LLM._run_engine_outputs.
  pose proof (@engine_loop_errors self fuel e []) as Hl.
  destruct (LLM.engine_loop _ _ _ _ _ _) as [[outs| err |] e1]; cbn [fst] in *.
  - intros H. apply post_process_outputs_errors in H.
    destruct H as [H | [H _]]; discriminate.
  - intros H. inversion H; subst. destruct (Hl _ eq_refl). discriminate.
  - discriminate.
Qed.

(** X18.  [LLM.generate] fails with [ValueError] exactly when budget
    forcing is requested without a minimum budget, and then the engine has
    not been stepped; without budget forcing a [TypeError] can only come
    from padding with a tokenizer that has neither a pad nor an
    end-of-sequence id. *)
Theorem generate_value_error
        (fuel : nat) (self : LLM.t) (e : E)
        (do_budget_forcing : bool) (min_budget : option Z) :
  let run := LLM.generate has_unfinished_requests step fuel self e
                          do_budget_forcing min_budget in
  (fst run = Err ValueError
   <-> do_budget_forcing = true /\ min_budget = None)
  /\ (fst run = Err ValueError -> snd run = e)
  /\ (do_budget_forcing = false ->
      fst run = Err TypeError ->
      tok_pad_token_id (LLM.tokenizer self) = None
      /\ tok_eos_token_id (LLM.tokenizer self) = None).
Proof.
  cbv zeta. unfold LLM.generate.
  set (self' := {| LLM.do_budget_forcing := do_budget_forcing |}).
  pose proof (no_value_error_run_engine fuel self' e) as Hnv.
  assert (Hty : do_budget_forcing = false ->
                fst (LLM._run_engine has_unfinished_requests step fuel
                                     self' e) = Err TypeError ->
                tok_pad_token_id (LLM.tokenizer self) = None
                /\ tok_eos_token_id (LLM.tokenizer self) = None).
  { intros Hoff. unfold LLM._run_engine, LLM._run_engine_outputs.
    pose proof (@engine_loop_errors self' fuel e []) as Hl.
    destruct (LLM.engine_loop _ _ _ _ _ _) as [[outs| err |] e1];
      cbn [fst] in *.
    - intros H. apply post_process_outputs_errors in H.
      destruct H as [H | [_ H]]; [discriminate | exact H].
    - destruct (Hl _ eq_refl) as [_ Hon]. unfold self' in Hon. cbn in Hon.
      congruence.
    - discriminate. }
  destruct do_budget_forcing, min_budget as [mb|]; cbn [fst snd].
  - split; [split; [intros H; contradiction | intros [_ H]; discriminate]|].
    split; [intros H; contradiction | intros H; discriminate].
  - split; [tauto|]. split; [reflexivity | intros H; discriminate].
  - split; [split; [intros H; contradiction | intros [H _]; discriminate]|].
    split; [intros H; contradiction | exact Hty].
  - split; [split; [intros H; contradiction | intros [H _]; discriminate]|].
    split; [intros H; contradiction | exact Hty].
Qed.

(** X17.  [_post_process_outputs] fails on an empty list of outputs and
    on a token id that does not fit in 64 bits; on a non-empty list of
    outputs with ids of 64 bits it returns a well-formed tensor whose rows
    are the completions, each followed by as many pad tokens (the pad id,
    or the end-of-sequence id when there is no pad id) as it is shorter
    than the longest completion, which is not padded at all. *)
Theorem post_process_outputs_pads
        (self : LLM.t) (request_outputs : list RequestOutput) (pad : Z) :
  tok_pad_token_id (LLM.tokenizer self) = Some pad
  \/ (tok_pad_token_id (LLM.tokenizer self) = None
      /\ tok_eos_token_id (LLM.tokenizer self) = Some pad) ->
  (request_outputs = [] ->
   LLM._post_process_outputs self request_outputs = Err RuntimeError)
  /\ ((exists o z, In o request_outputs /\ In z (token_ids o)
                     /\ ~ in_int64 z) ->
      LLM._post_process_outputs self request_outputs = Err RuntimeError)
  /\ (request_outputs <> [] ->
      (forall o z, In o request_outputs -> In z (token_ids o) -> in_int64 z) ->
      exists t,
        LLM._post_process_outputs self request_outputs = Ok t
        /\ wf t
        /\ Forall2 (fun o r =>
                      r = token_ids o
                          ++ repeat pad (ncols t - length (token_ids o)))
                   request_outputs (rows t)
        /\ Forall (fun o => (length (token_ids o) <= ncols t)%nat)
                  request_outputs
        /\ exists o, In o request_outputs
                     /\ length (token_ids o) = ncols t).
Proof.
  intros Hpad.
  assert (Hpp : rmap int64_tensor (map token_ids request_outputs)
                = Ok (map token_ids request_outputs) ->
                LLM._post_process_outputs self request_outputs
                = pad_sequence (map token_ids request_outputs) pad).
  { unfold LLM._post_process_outputs. intros ->. cbn [rbind].
    destruct Hpad as [-> | [-> ->]]; reflexivity. }
  split; [|split].
  - intros ->. destruct Hpad as [H | [H1 H2]];
      unfold LLM._post_process_outputs; cbn; rewrite ?H, ?H1, ?H2;
      reflexivity.
  - intros (o & z & Ho & Hz & Hn). unfold LLM._post_process_outputs.
    destruct (rmap_int64_tensor_cases (map token_ids request_outputs))
      as [[_ Hall] | [-> _]]; [|reflexivity].
    exfalso. apply Hn. apply (Hall (token_ids o)); [|assumption].
    now apply in_map.
  - intros Hne Hrange. rewrite Hpp.
    2:{ destruct (rmap_int64_tensor_cases (map token_ids request_outputs))
          as [[-> _] | [_ (ids & z & Hi & Hz & Hn)]]; [reflexivity|].
        exfalso. apply in_map_iff in Hi. destruct Hi as (o & <- & Ho).
        apply Hn. now apply (Hrange o). }
    clear Hpp Hpad Hrange. unfold pad_sequence.
    destruct (map token_ids request_outputs) as [|s0 ss] eqn:Em.
    { destruct request_outputs; [congruence | discriminate]. }
    rewrite <- Em. clear s0 ss Em.
    remember (fold_right Nat.max 0%nat
                         (map (@length Z) (map token_ids request_outputs)))
      as width eqn:Hw.
    assert (Hmax : forall o, In o request_outputs ->
                             (length (token_ids o) <= width)%nat).
    { subst width. clear. induction request_outputs as [|o l IH];
        intros x Hin; [destruct Hin|].
      destruct Hin as [<- | Hin]; cbn; [lia|]. specialize (IH x Hin). lia. }
    assert (Hatt : exists o, In o request_outputs
                             /\ length (token_ids o) = width).
    { subst width. clear Hmax.
      induction request_outputs as [|o l IH]; [congruence|].
      destruct l as [|o' l'].
      - exists o. cbn. split; [auto | lia].
      - destruct IH as (x & Hx & Hl); [discriminate|].
        cbn [map fold_right] in *.
        destruct (Nat.max_spec (length (token_ids o))
                               (Nat.max (length (token_ids o'))
                                        (fold_right Nat.max 0%nat
                                           (map (@length Z)
                                                (map token_ids l')))))
          as [[_ ->] | [_ ->]].
        + exists x. split; [right; assumption | assumption].
        + exists o. split; [left; reflexivity | reflexivity]. }
    eexists. split; [reflexivity|]. cbn [ncols rows].
    split; [|split; [|split]].
    + unfold wf. cbn [rows ncols]. apply Forall_forall. intros r Hr.
      apply in_map_iff in Hr. destruct Hr as (s & <- & Hs).
      apply in_map_iff in Hs. destruct Hs as (o & <- & Ho).
      rewrite length_app, repeat_length. specialize (Hmax o Ho).
      lia.
    + rewrite map_map. clear.
      induction request_outputs; cbn; constructor; auto.
    + apply Forall_forall. exact Hmax.
    + exact Hatt.
Qed.

End EngineFacts.

Lemma run_engine_outputs_finished_sorted_witness :
  Forall (fun o => finished o = true)
         [mkRequestOutput 0 [7; 8; 9] true; mkRequestOutput 1 [5; 6] true]
  /\ StronglySorted
       by_request_id
       [mkRequestOutput 0 [7; 8; 9] true; mkRequestOutput 1 [5; 6] true]
  /\ script_unfinished [] = false.
Proof.
  apply (@run_engine_outputs_finished_sorted
           _ script_unfinished script_step 5 (qwen_llm true (Some 10))
           two_step_script []).
  reflexivity.
Defined.

Lemma run_engine_outputs_after_n_steps_witness :
  LLM._run_engine_outputs script_unfinished script_step 5
                          (qwen_llm false None) two_step_script
  = (Ok [mkRequestOutput 0 [7; 8; 9] true; mkRequestOutput 1 [5; 6] true], [])
  /\ fst (LLM._run_engine_outputs
            script_unfinished script_step 1 (qwen_llm true (Some 10))
            [[mkRequestOutput 0 [64; 522; 26865; 29] false]])
     = Err TypeError.
Proof.
  split.
  - apply (proj1 (@run_engine_outputs_after_n_steps
                    _ script_unfinished script_step (qwen_llm false None)
                    2 5 two_step_script eq_refl ltac:(lia))).
    reflexivity.
  - apply (proj2 (proj2 (@run_engine_outputs_after_n_steps
                           _ script_unfinished script_step
                           (qwen_llm true (Some 10)) 1 1
                           [[mkRequestOutput 0 [64; 522; 26865; 29] false]]
                           eq_refl ltac:(lia)))).
    reflexivity.
Defined.

Lemma generate_value_error_witness :
  fst (LLM.generate script_unfinished script_step 5 (qwen_llm false None)
                    two_step_script true None) = Err ValueError
  /\ snd (LLM.generate script_unfinished script_step 5 (qwen_llm false None)
                       two_step_script true None) = two_step_script.
Proof.
  pose proof (@generate_value_error
                _ script_unfinished script_step 5 (qwen_llm false None)
                two_step_script true None) as H.
  cbv zeta in H. destruct H as ([_ H1] & H2 & _).
  split; [apply H1; auto | apply H2, H1; auto].
Defined.

Lemma post_process_outputs_pads_witness :
  LLM._post_process_outputs (qwen_llm false None) [] = Err RuntimeError
  /\ LLM._post_process_outputs
       (qwen_llm false None) [mkRequestOutput 0 [7; 2 ^ 63] true]
     = Err RuntimeError
  /\ exists t,
      LLM._post_process_outputs
        (qwen_llm false None)
        [mkRequestOutput 0 [7; 8; 9] true; mkRequestOutput 1 [5; 6] true]
      = Ok t
      /\ wf t
      /\ Forall2 (fun o r =>
                    r = token_ids o
                        ++ repeat 151643 (ncols t - length (token_ids o)))
                 [mkRequestOutput 0 [7; 8; 9] true;
                  mkRequestOutput 1 [5; 6] true] (rows t)
      /\ Forall (fun o => (length (token_ids o) <= ncols t)%nat)
                [mkRequestOutput 0 [7; 8; 9] true;
                 mkRequestOutput 1 [5; 6] true]
      /\ exists o, In o [mkRequestOutput 0 [7; 8; 9] true;
                         mkRequestOutput 1 [5; 6] true]
                   /\ length (token_ids o) = ncols t.
Proof.
  split; [|split].
  - apply (proj1 (@post_process_outputs_pads
                    (qwen_llm false None) [] 151643 (or_introl eq_refl))).
    reflexivity.
  - apply (proj1 (proj2 (@post_process_outputs_pads
                           (qwen_llm false None)
                           [mkRequestOutput 0 [7; 2 ^ 63] true]
                           151643 (or_introl eq_refl)))).
    exists (mkRequestOutput 0 [7; 2 ^ 63] true), (2 ^ 63).
    split; [left; reflexivity|]. split; [right; left; reflexivity|].
    unfold in_int64. lia.
  - apply (proj2 (proj2 (@post_process_outputs_pads
                           (qwen_llm false None)
                           [mkRequestOutput 0 [7; 8; 9] true;
                            mkRequestOutput 1 [5; 6] true]
                           151643 (or_introl eq_refl)))).
    + discriminate.
    + intros o z [<- | [<- | []]] Hz; cbn in Hz; unfold in_int64;
        repeat (destruct Hz as [<- | Hz]; [lia|]); destruct Hz.
Defined.

(* ================================================================= *)
(** ** train.py: what the trainer is handed *)

Lemma kw_get_filter_max_tokens {V} (kwargs : list (string * V)) (k : string) :
  kw_get (filter (fun kv => negb (String.eqb (fst kv) "max_tokens")) kwargs) k
  = if String.eqb k "max_tokens" then None else kw_get kwargs k.
Proof.
  induction kwargs as [|[k' v] l IH]; cbn [filter kw_get fst].
  - now destruct (String.eqb k "max_tokens").
  - destruct (String.eqb k' "max_tokens") eqn:E1; cbn [negb kw_get].
    + rewrite IH. destruct (String.eqb k "max_tokens") eqn:E2; [reflexivity|].
      destruct (String.eqb k' k) eqn:E3; [|reflexivity].
      apply String.eqb_eq in E1, E3. subst.
      rewrite String.eqb_refl in E2. discriminate.
    + rewrite IH. destruct (String.eqb k' k) eqn:E3; [|reflexivity].
      apply String.eqb_eq in E3. subst. now rewrite E1.
Qed.

(** X19.  [vLLMSamplingParams] fails exactly when [SamplingParams]
    rejects the arguments; otherwise the attached [_set_kwargs] never
    holds [max_tokens] and holds every other keyword argument with its
    value. *)
Theorem vLLMSamplingParams_set_kwargs
        (V SP : Type) (new : list (string * V) -> result SP)
        (kwargs : list (string * V)) :
  (forall e, new kwargs = Err e -> vLLMSamplingParams new kwargs = Err e)
  /\ (forall sp,
         new kwargs = Ok sp ->
         exists attach,
           vLLMSamplingParams new kwargs = Ok (sp, attach)
           /\ kw_get attach "max_tokens" = None
           /\ (forall k, k <> "max_tokens"%string ->
                         kw_get attach k = kw_get kwargs k)
           /\ (length attach <= length kwargs)%nat).
Proof.
  unfold vLLMSamplingParams. split.
  - intros e ->. reflexivity.
  - intros sp ->. cbn [rbind]. eexists. split; [reflexivity|].
    split; [|split].
    + now rewrite kw_get_filter_max_tokens.
    + intros k Hk. rewrite kw_get_filter_max_tokens.
      apply String.eqb_neq in Hk. now rewrite Hk.
    + apply filter_length_le.
Qed.

Lemma vLLMSamplingParams_set_kwargs_witness :
  exists attach,
    vLLMSamplingParams (fun kw => Ok (length kw))
                       [("max_tokens"%string, 1024);
                        ("logits_processors"%string, 0)]
    = Ok (2%nat, attach)
    /\ kw_get attach "max_tokens" = None
    /\ (forall k, k <> "max_tokens"%string ->
                  kw_get attach k
                  = kw_get [("max_tokens"%string, 1024);
                            ("logits_processors"%string, 0)] k)
    /\ (length attach <= 2)%nat.
Proof.
  apply (proj2 (@vLLMSamplingParams_set_kwargs
                  Z nat (fun kw => Ok (length kw))
                  [("max_tokens"%string, 1024);
                   ("logits_processors"%string, 0)])).
  reflexivity.
Defined.
